(** * The prompt enhancer: endpoint [api/enhancePrompt.js] and form
      controller [js/script.js]

    A shallow embedding of the two JavaScript functions of the repository
    and the properties of the request validation, prompt construction and
    error mapping contract between them.  The endpoint is the file
    [api/enhancePrompt.js]; the controller is the listing of
    [js/script.js] in [prompt-enhancer-tasks.md], and the line numbers
    given for it are those of that file.

    - [JS]         : the fragment of JavaScript values the code
                     manipulates (JSON values, truthiness, property
                     reads, string conversion, [String.prototype.trim]).
    - [Effects]    : exceptions over a persistent world, with
                     [try/catch] and [try/finally].
    - [Endpoint]   : [module.exports] of [api/enhancePrompt.js].
    - [Client]     : [enhancePrompt] of [js/script.js].
    - [CopyButton] : the listener of the copy button of [js/script.js].
    - [Listing]    : the handler as [prompt-enhancer-tasks.md] lists
                     it. *)

From Stdlib Require Import List String Ascii Bool NArith ZArith QArith Qcanon.
From Stdlib Require Import DecimalString.
From ExtLib Require Import Structures.Monad Structures.MonadState
  Structures.MonadExc Data.Monads.StateMonad Data.Monads.EitherMonad.
Import ListNotations.
Import MonadNotation.
Local Open Scope monad_scope.

Set Implicit Arguments.
Set Warnings "-register-all".

(* ===================================================================== *)
(** ** JavaScript values                                                  *)
(* ===================================================================== *)

Module JS.

(** A JavaScript string is a sequence of UTF-16 code units. *)
Definition code_unit := N.
Definition js_string := list code_unit.

(** An ASCII literal of the source, as a JavaScript string. *)
Definition lit (s : string) : js_string :=
  List.map N_of_ascii (list_ascii_of_string s).

Fixpoint js_string_eqb (a b : js_string) : bool :=
  match a, b with
  | [], [] => true
  | x :: a', y :: b' => N.eqb x y && js_string_eqb a' b'
  | _, _ => false
  end.

(** A number: a finite one is modelled by its mathematical value (so
    both zeros are [Finite 0]); [JSON.parse] gives an infinity for a
    literal that is too large. *)
Inductive number : Type :=
| Finite (q : Q)
| PosInfinity
| NegInfinity
| NaN.

(** [a === b] on numbers. *)
Definition number_eq (a b : number) : Prop :=
  match a, b with
  | Finite x, Finite y => x == y
  | PosInfinity, PosInfinity => True
  | NegInfinity, NegInfinity => True
  | _, _ => False
  end.

(** [a / 10] *)
Definition tenth (a : number) : number :=
  match a with
  | Finite x => Finite (x / 10)
  | other => other
  end.

(** The values that [JSON.parse] produces, and [undefined]; an object is
    its list of own properties. *)
Inductive value : Type :=
| JUndefined
| JNull
| JBool (b : bool)
| JNum (n : number)
| JStr (s : js_string)
| JArr (elems : list value)
| JObj (props : list (js_string * value)).

(** A [TypeError] with the given message. *)
Definition TypeError (message : js_string) : value :=
  JObj [ (lit "name", JStr (lit "TypeError"));
         (lit "message", JStr message) ].

(** [ToBoolean]: what [!v], [v || w] and [if (v)] test. *)
Definition truthy (v : value) : bool :=
  match v with
  | JUndefined | JNull => false
  | JBool b => b
  | JNum (Finite q) => negb (Qeq_bool q 0)
  | JNum NaN => false
  | JNum _ => true
  | JStr s => match s with [] => false | _ :: _ => true end
  | JArr _ | JObj _ => true
  end.

(** The number literal [z]. *)
Definition JInt (z : Z) : value := JNum (Finite (inject_Z z)).

(** [a || b] *)
Definition js_or (a b : value) : value := if truthy a then a else b.

Definition is_nullish (v : value) : bool :=
  match v with
  | JUndefined | JNull => true
  | _ => false
  end.

(** *** Property keys *)

Definition decimal_of_N (n : N) : js_string :=
  lit (NilZero.string_of_uint (N.to_uint n)).

Definition digit_of (c : code_unit) : option N :=
  if (48 <=? c)%N && (c <=? 57)%N then Some (c - 48)%N else None.

Fixpoint digits_value (acc : N) (s : js_string) : option N :=
  match s with
  | [] => Some acc
  | c :: s' =>
      match digit_of c with
      | Some d => digits_value (10 * acc + d)%N s'
      | None => None
      end
  end.

(** A property key is an array index when it is the canonical decimal
    string of a number: ["0"], ["17"], but not ["01"] or [""]. *)
Definition array_index (k : js_string) : option nat :=
  match k with
  | [] => None
  | _ :: _ =>
      match digits_value 0 k with
      | Some n => if js_string_eqb (decimal_of_N n) k
                  then Some (N.to_nat n) else None
      | None => None
      end
  end.

Fixpoint lookup (k : js_string) (props : list (js_string * value))
  : option value :=
  match props with
  | [] => None
  | (k', v) :: rest => if js_string_eqb k' k then Some v else lookup k rest
  end.

(** [v[k]] for a [v] that is neither [undefined] nor [null]: own
    properties of objects, elements and [length] of arrays and strings.
    Keys found only on a prototype read as [undefined] here; the code reads
    no such key. *)
Definition Get (v : value) (k : js_string) : value :=
  match v with
  | JObj props =>
      match lookup k props with Some x => x | None => JUndefined end
  | JArr elems =>
      if js_string_eqb k (lit "length")
      then JInt (Z.of_nat (List.length elems))
      else match array_index k with
           | Some i => nth i elems JUndefined
           | None => JUndefined
           end
  | JStr s =>
      if js_string_eqb k (lit "length")
      then JInt (Z.of_nat (List.length s))
      else match array_index k with
           | Some i => match nth_error s i with
                       | Some c => JStr [c]
                       | None => JUndefined
                       end
           | None => JUndefined
           end
  | _ => JUndefined
  end.

(** [v?.[k]] *)
Definition optional_get (v : value) (k : js_string) : value :=
  if is_nullish v then JUndefined else Get v k.

(** *** Conversion to string *)

(** The part of the language's number formatting that the embedding does
    not spell out: the digits of a fraction, and of an integer above
    2^53, which prints the shortest digits that read back as the same
    double, not its own. *)
Class Runtime : Type :=
  { Number_toString_other : Q -> js_string }.

Section ToString.
Context {rt : Runtime}.

Definition decimal_of_Z (z : Z) : js_string :=
  lit (NilZero.string_of_int (Z.to_int z)).

(** [Number::toString]: an integer of magnitude up to 2^53 prints its
    decimal digits. *)
Definition Number_toString (n : number) : js_string :=
  match n with
  | Finite q =>
      let r := Qred q in
      if Pos.eqb (Qden r) 1 && (Z.abs (Qnum r) <=? 2 ^ 53)%Z
      then decimal_of_Z (Qnum r)
      else Number_toString_other r
  | PosInfinity => lit "Infinity"
  | NegInfinity => lit "-Infinity"
  | NaN => lit "NaN"
  end.

Fixpoint join (sep : js_string) (parts : list js_string) : js_string :=
  match parts with
  | [] => []
  | [p] => p
  | p :: rest => p ++ sep ++ join sep rest
  end.

(** What the conversion of an object to a primitive throws when none of
    its [toString] and [valueOf] gives one. *)
Definition not_primitive : value :=
  TypeError (lit "Cannot convert object to primitive value").

(** [ToString], as a template literal [`${v}`] and the assignment of a
    DOM string apply it.  The conversion of an object calls its
    [toString]: a parsed object that has a key [toString] of its own
    hides the inherited method behind a value that cannot be called, and
    the conversion throws; an array joins the conversions of its
    elements, and throws when one of them does. *)
Fixpoint ToString (v : value) : value + js_string :=
  match v with
  | JUndefined => inr (lit "undefined")
  | JNull => inr (lit "null")
  | JBool true => inr (lit "true")
  | JBool false => inr (lit "false")
  | JNum n => inr (Number_toString n)
  | JStr s => inr s
  | JArr elems =>
      let fix parts (l : list value) : value + list js_string :=
        match l with
        | [] => inr []
        | e :: rest =>
            match (if is_nullish e then inr [] else ToString e) with
            | inl error => inl error
            | inr s =>
                match parts rest with
                | inl error => inl error
                | inr ss => inr (s :: ss)
                end
            end
        end in
      match parts elems with
      | inl error => inl error
      | inr ss => inr (join (lit ",") ss)
      end
  | JObj props =>
      match lookup (lit "toString") props with
      | Some _ => inl not_primitive
      | None => inr (lit "[object Object]")
      end
  end.
End ToString.

(** *** [String.prototype.trim] *)

(** WhiteSpace and LineTerminator code points of the language. *)
Definition is_white_space (c : code_unit) : bool :=
  existsb (N.eqb c)
    [ 0x0009; 0x000A; 0x000B; 0x000C; 0x000D; 0x0020; 0x00A0; 0x1680;
      0x2000; 0x2001; 0x2002; 0x2003; 0x2004; 0x2005; 0x2006; 0x2007;
      0x2008; 0x2009; 0x200A; 0x2028; 0x2029; 0x202F; 0x205F; 0x3000;
      0xFEFF ]%N.

Fixpoint trim_start (s : js_string) : js_string :=
  match s with
  | [] => []
  | c :: s' => if is_white_space c then trim_start s' else s
  end.

(** White space at the end is white space at the start of the reverse. *)
Definition trim_end (s : js_string) : js_string :=
  rev (trim_start (rev s)).

Definition trim (s : js_string) : js_string := trim_end (trim_start s).

End JS.

(* ===================================================================== *)
(** ** Effects: exceptions over a world that survives them                *)
(* ===================================================================== *)

Module Effects.
Import JS.

Section World.
Variable W : Type.

(** A computation either throws a value or returns one, and in both
    cases leaves a world behind: what a [catch] or [finally] block sees
    is the world at the point of the [throw]. *)
Definition JSM : Type -> Type := eitherT value (state W).

#[global] Instance Monad_JSM : Monad JSM :=
  Monad_eitherT value (Monad_state W).
#[global] Instance Exception_JSM : MonadExc value JSM :=
  Exception_eitherT value (Monad_state W).
#[global] Instance State_JSM : MonadState W JSM :=
  MonadState_eitherT value (Monad_state W) (MonadState_state W).

Definition run {A} (m : JSM A) (w : W) : (value + A) * W :=
  runState (unEitherT m) w.

Definition throw {A} (e : value) : JSM A := raise e.

Definition update (f : W -> W) : JSM unit :=
  w <- get ;; put (f w).

(** [try { body } catch (error) { handler error }] *)
Definition try_catch {A} (body : JSM A) (handler : value -> JSM A)
  : JSM A :=
  catch body handler.

(** [try { body } finally { fin }]: [fin] runs on both exits; the exit
    of [body] stands unless [fin] itself throws. *)
Definition try_finally {A} (body : JSM A) (fin : JSM unit) : JSM A :=
  mkEitherT
    (r <- unEitherT body ;;
     f <- unEitherT fin ;;
     ret (match f with
          | inl e => inl e
          | inr _ => r
          end)).

(** [await p] for a promise that has settled: a rejection throws. *)
Definition await (p : value + value) : JSM value :=
  match p with
  | inl reason => throw reason
  | inr v => ret v
  end.

(** An expression whose evaluation throws ([inl]) or gives a value
    ([inr]). *)
Definition evaluate {A} (o : value + A) : JSM A :=
  match o with
  | inl error => throw error
  | inr a => ret a
  end.

Definition nullish_name (v : value) : js_string :=
  match v with
  | JNull => lit "null"
  | _ => lit "undefined"
  end.

(** [v.k] and [v[k]]: a [TypeError] on [undefined] and [null]. *)
Definition GetV (v : value) (k : js_string) : JSM value :=
  if is_nullish v
  then throw (TypeError (lit "Cannot read properties of "
                           ++ nullish_name v
                           ++ lit " (reading '" ++ k ++ lit "')"))
  else ret (Get v k).

(** One binding [k] of [const { k, ... } = v]. *)
Definition destructure (v : value) (k : js_string) : JSM value :=
  if is_nullish v
  then throw (TypeError (lit "Cannot destructure property '" ++ k
                           ++ lit "' of '" ++ nullish_name v
                           ++ lit "' as it is " ++ nullish_name v
                           ++ lit "."))
  else ret (Get v k).
End World.

Arguments run {W A} m w.
Arguments throw {W A} e.
Arguments update {W} f.
Arguments try_catch {W A} body handler.
Arguments try_finally {W A} body fin.
Arguments await {W} p.
Arguments evaluate {W A} o.
Arguments GetV {W} v k.
Arguments destructure {W} v k.

End Effects.

(* ===================================================================== *)
(** ** The enhancement endpoint, [api/enhancePrompt.js]                   *)
(* ===================================================================== *)

Module Endpoint.
Import JS Effects.

(** What the handler reads of [req]. *)
Record Request : Type :=
  { method : js_string;
    body : value }.

(** [process.env] *)
Record ProcessEnv : Type :=
  { OPENAI_API_KEY : value }.

(** The client object that [new OpenAI({ apiKey })] builds. *)
Record OpenAI : Type :=
  { apiKey : value }.

(** The constructor of the [openai] package: [new OpenAI(options)]
    throws ([inl]) or returns a client ([inr]). *)
Class OpenAIConstructor : Type :=
  { new_OpenAI : value -> value + OpenAI }.

Record Message : Type :=
  { role : js_string;
    content : value }.

(** The argument of [openai.chat.completions.create]. *)
Record CompletionParams : Type :=
  { model : js_string;
    messages : list Message;
    temperature : number }.

(** What the handler does to the outside, in order. *)
Inductive Event : Type :=
| Create (client : OpenAI) (params : CompletionParams)
| ConsoleError (args : list value)
| Respond (status : Z) (payload : option value).

(** The completion API behind the [openai] package: the promise that
    [create] returns is rejected ([inl]) or resolved ([inr]).  It sees
    the client, and with it the key: a missing key is the API's to
    reject. *)
Class CompletionAPI : Type :=
  { chat_completions_create : OpenAI -> CompletionParams -> value + value }.

Definition Trace : Type := list Event.

(** The handler's computations. *)
Definition M : Type -> Type := JSM Trace.

Definition nl : js_string := [10%N].

Section Handler.
Context {rt : Runtime} {sdk : OpenAIConstructor} {api : CompletionAPI}.
Variable env : ProcessEnv.

Definition emit (e : Event) : M unit :=
  update (fun trace => trace ++ [e]).

(** [res.status(code).end()] *)
Definition res_status_end (code : Z) : M unit :=
  emit (Respond code None).

(** [res.status(code).json(payload)] *)
Definition res_status_json (code : Z) (payload : value) : M unit :=
  emit (Respond code (Some payload)).

Definition console_error (args : list value) : M unit :=
  emit (ConsoleError args).

(** [await openai.chat.completions.create(params)] *)
Definition create (openai : OpenAI) (params : CompletionParams) : M value :=
  emit (Create openai params) ;;
  await (chat_completions_create openai params).

Definition error_body (message : string) : value :=
  JObj [ (lit "error", JStr (lit message)) ].

(** The text of the template literal of line 19, around the strings
    that stand for [${style}] and [${creativity}]. *)
Definition instruction_text (style creativity : js_string) : js_string :=
  lit "Enhance the following prompt using " ++ style
    ++ lit " style with creativity level " ++ creativity
    ++ lit "/10." ++ nl
    ++ lit "Apply prompt engineering best practices to make it more effective for AI interaction."
    ++ nl
    ++ lit "Return only the enhanced prompt without any additional explanations.".

(** The template literal of line 19: it converts [style], then
    [creativity], and throws what either conversion throws. *)
Definition enhancementInstruction (style creativity : value)
  : value + js_string :=
  match ToString style with
  | inl error => inl error
  | inr s =>
      match ToString creativity with
      | inl error => inl error
      | inr c => inr (instruction_text s c)
      end
  end.

(** [choices?.[0]?.message?.content || ''] *)
Definition first_content (choices : value) : value :=
  js_or
    (optional_get
       (optional_get (optional_get choices (lit "0")) (lit "message"))
       (lit "content"))
    (JStr (lit "")).

(** The object literal of lines 21 to 28, around the instruction of
    line 19. *)
Definition completion_request (prompt : value) (instruction : js_string)
  : CompletionParams :=
  {| model := lit "";
     messages :=
       [ {| role := lit "system"; content := JStr instruction |};
         {| role := lit "user"; content := prompt |} ];
     temperature := Finite (7 # 10) |}.

(** The argument of [new OpenAI], line 17. *)
Definition client_options : value :=
  JObj [ (lit "apiKey", OPENAI_API_KEY env) ].

(** What [const { k } = req.body || {}] binds to [k]. *)
Definition field (req : Request) (k : string) : value :=
  Get (js_or (body req) (JObj [])) (lit k).

(** The body of the [try] block, lines 14 to 31. *)
Definition enhance (req : Request) : M unit :=
  let source := js_or (body req) (JObj []) in
  prompt <- destructure source (lit "prompt") ;;
  style <- destructure source (lit "style") ;;
  creativity <- destructure source (lit "creativity") ;;
  if negb (truthy prompt)
  then res_status_json 400 (error_body "Missing prompt")
  else
    openai <- evaluate (new_OpenAI client_options) ;;
    instruction <- evaluate (enhancementInstruction style creativity) ;;
    completion <- create openai (completion_request prompt instruction) ;;
    choices <- GetV completion (lit "choices") ;;
    let enhancedPrompt := first_content choices in
    res_status_json 200 (JObj [ (lit "enhancedPrompt", enhancedPrompt) ]).

(** The [catch] block, lines 32 to 35. *)
Definition on_error (error : value) : M unit :=
  console_error [ JStr (lit "Error enhancing prompt:"); error ] ;;
  res_status_json 500 (error_body "Failed to enhance prompt").

(** [module.exports = async (req, res) => ...] *)
Definition handler (req : Request) : M unit :=
  if js_string_eqb (method req) (lit "OPTIONS")
  then res_status_end 200
  else if negb (js_string_eqb (method req) (lit "POST"))
  then res_status_json 405 (error_body "Method not allowed")
  else try_catch (enhance req) on_error.

(** The trace of one invocation. *)
Definition serve (req : Request) : (value + unit) * list Event :=
  run (handler req) [].
End Handler.

(** *** Reading a trace *)

Definition responses (trace : list Event) : list (Z * option value) :=
  flat_map (fun e => match e with
                     | Respond code payload => [(code, payload)]
                     | _ => []
                     end) trace.

Definition api_calls (trace : list Event)
  : list (OpenAI * CompletionParams) :=
  flat_map (fun e => match e with
                     | Create client params => [(client, params)]
                     | _ => []
                     end) trace.

End Endpoint.

(* ===================================================================== *)
(** ** The form controller, [js/script.js]                                *)
(* ===================================================================== *)

Module Client.
Import JS Effects.

(** The parts of the page that [enhancePrompt] reads and writes. *)
Record Dom : Type :=
  { promptEl_value : js_string;
    styleEl_value : js_string;
    creativityEl_value : js_string;
    enhanceBtn_disabled : bool;
    resultEl_textContent : js_string;
    loader_classList : list js_string }.

(** The second argument of [fetch]. *)
Record RequestInit : Type :=
  { method : js_string;
    headers : list (js_string * js_string);
    body : js_string }.

(** What the controller uses of the [Response] that [fetch] resolves
    to; [json] is the promise that [res.json()] returns. *)
Record Response : Type :=
  { ok : bool;
    json : value + value }.

Inductive Event : Type :=
| Alert (message : js_string)
| Fetch (url : js_string) (init : RequestInit).

Record World : Type :=
  { dom : Dom;
    log : list Event }.

(** The browser: the network behind [fetch], and the two built-ins whose
    results the controller only passes on. *)
Class Browser : Type :=
  { fetch_settles : js_string -> RequestInit -> value + Response;
    Number : js_string -> value;
    JSON_stringify : value -> js_string }.

Definition C : Type -> Type := JSM World.

(** [classList.remove(token)] and [classList.add(token)] *)
Definition classList_remove (token : js_string) (l : list js_string)
  : list js_string :=
  filter (fun t => negb (js_string_eqb t token)) l.

Definition classList_add (token : js_string) (l : list js_string)
  : list js_string :=
  if existsb (fun t => js_string_eqb t token) l then l else l ++ [token].

Definition with_dom (f : Dom -> Dom) (w : World) : World :=
  {| dom := f (dom w); log := log w |}.

Definition set_loader_classList (l : list js_string) (d : Dom) : Dom :=
  {| promptEl_value := promptEl_value d;
     styleEl_value := styleEl_value d;
     creativityEl_value := creativityEl_value d;
     enhanceBtn_disabled := enhanceBtn_disabled d;
     resultEl_textContent := resultEl_textContent d;
     loader_classList := l |}.

Definition set_enhanceBtn_disabled (b : bool) (d : Dom) : Dom :=
  {| promptEl_value := promptEl_value d;
     styleEl_value := styleEl_value d;
     creativityEl_value := creativityEl_value d;
     enhanceBtn_disabled := b;
     resultEl_textContent := resultEl_textContent d;
     loader_classList := loader_classList d |}.

Definition set_resultEl_textContent (s : js_string) (d : Dom) : Dom :=
  {| promptEl_value := promptEl_value d;
     styleEl_value := styleEl_value d;
     creativityEl_value := creativityEl_value d;
     enhanceBtn_disabled := enhanceBtn_disabled d;
     resultEl_textContent := s;
     loader_classList := loader_classList d |}.

(** The busy state: loader shown, trigger disabled. *)
Definition is_busy (d : Dom) : bool :=
  negb (existsb (fun t => js_string_eqb t (lit "hidden")) (loader_classList d))
  && enhanceBtn_disabled d.

(** The idle state: loader hidden, trigger enabled. *)
Definition is_idle (d : Dom) : bool :=
  existsb (fun t => js_string_eqb t (lit "hidden")) (loader_classList d)
  && negb (enhanceBtn_disabled d).

Definition fetches (l : list Event) : list (js_string * RequestInit) :=
  flat_map (fun e => match e with
                     | Fetch url init => [(url, init)]
                     | Alert _ => []
                     end) l.

Section Controller.
Context {rt : Runtime} {browser : Browser}.

Definition emit (e : Event) : C unit :=
  update (fun w => {| dom := dom w; log := log w ++ [e] |}).

Definition alert (message : js_string) : C unit := emit (Alert message).

(** [await fetch(url, init)] *)
Definition fetch (url : js_string) (init : RequestInit) : C Response :=
  emit (Fetch url init) ;;
  match fetch_settles url init with
  | inl reason => throw reason
  | inr res => ret res
  end.

(** [resultEl.textContent = v]: the value is converted to a string
    first, and the assignment throws when the conversion does. *)
Definition assign_textContent (v : value) : C unit :=
  text <- evaluate (if is_nullish v then inr [] else ToString v) ;;
  update (with_dom (set_resultEl_textContent text)).

(** The [try] block, lines 127 to 142. *)
Definition exchange (prompt : js_string) : C unit :=
  w <- get ;;
  res <- fetch (lit "/api/enhancePrompt")
           {| method := lit "POST";
              headers := [ (lit "Content-Type", lit "application/json") ];
              body := JSON_stringify
                        (JObj [ (lit "prompt", JStr prompt);
                                (lit "style", JStr (styleEl_value (dom w)));
                                (lit "creativity",
                                 Number (creativityEl_value (dom w))) ]) |} ;;
  data <- await (json res) ;;
  if ok res
  then
    enhanced <- GetV data (lit "enhancedPrompt") ;;
    assign_textContent (js_or enhanced (JStr (lit "No result")))
  else
    error <- GetV data (lit "error") ;;
    assign_textContent (js_or error (JStr (lit "Failed to enhance prompt"))).

(** The [catch] block, lines 143 to 144. *)
Definition on_failure (err : value) : C unit :=
  assign_textContent (JStr (lit "Network error")).

(** The [finally] block, lines 145 to 148. *)
Definition clear_busy : C unit :=
  update (with_dom (fun d =>
    set_loader_classList (classList_add (lit "hidden") (loader_classList d)) d)) ;;
  update (with_dom (set_enhanceBtn_disabled false)).

(** Lines 123 and 124. *)
Definition show_busy : C unit :=
  update (with_dom (fun d =>
    set_loader_classList
      (classList_remove (lit "hidden") (loader_classList d)) d)) ;;
  update (with_dom (set_enhanceBtn_disabled true)).

(** [async function enhancePrompt()] *)
Definition enhancePrompt : C unit :=
  w <- get ;;
  let prompt := trim (promptEl_value (dom w)) in
  if negb (truthy (JStr prompt))
  then alert (lit "Please enter a prompt.")
  else
    show_busy ;;
    try_finally (try_catch (exchange prompt) on_failure) clear_busy.

(** One click on the trigger. *)
Definition click (w : World) : (value + unit) * World :=
  run enhancePrompt w.
End Controller.

End Client.

(* ===================================================================== *)
(** ** Concrete runtimes, used to run the code on examples                *)
(* ===================================================================== *)

Module Examples.
Import JS Effects.

(** Only integers are printed in the examples. *)
Definition integers_only : Runtime :=
  {| Number_toString_other := fun _ => lit "NaN" |}.

Definition completion_with (text : string) : value :=
  JObj [ (lit "choices",
          JArr [ JObj [ (lit "message",
                         JObj [ (lit "role", JStr (lit "assistant"));
                                (lit "content", JStr (lit text)) ]) ] ]) ].

(** A completion API that answers every request with the same text. *)
Definition api_answers (text : string) : Endpoint.CompletionAPI :=
  {| Endpoint.chat_completions_create :=
       fun _ _ => inr (completion_with text) |}.

(** A completion API that rejects every request. *)
Definition api_rejects (reason : value) : Endpoint.CompletionAPI :=
  {| Endpoint.chat_completions_create := fun _ _ => inl reason |}.

(** A completion API that resolves every request to the given value. *)
Definition api_resolves (v : value) : Endpoint.CompletionAPI :=
  {| Endpoint.chat_completions_create := fun _ _ => inr v |}.

(** The constructor of version 4 of the package: it throws when the
    options give no key, and keeps the key otherwise. *)
Definition missing_key : value :=
  JObj [ (lit "name", JStr (lit "OpenAIError"));
         (lit "message",
          JStr (lit "The OPENAI_API_KEY environment variable is missing or empty")) ].

Definition openai_v4 : Endpoint.OpenAIConstructor :=
  {| Endpoint.new_OpenAI := fun options =>
       match Get options (lit "apiKey") with
       | JUndefined => inl missing_key
       | key => inr {| Endpoint.apiKey := key |}
       end |}.

Definition upstream_error : value :=
  JObj [ (lit "name", JStr (lit "APIError"));
         (lit "message", JStr (lit "401 Incorrect API key provided")) ].

Definition env_with_key : Endpoint.ProcessEnv :=
  {| Endpoint.OPENAI_API_KEY := JStr (lit "sk-test") |}.

(** The environment of a deployment whose key was never set. *)
Definition env_without_key : Endpoint.ProcessEnv :=
  {| Endpoint.OPENAI_API_KEY := JUndefined |}.

Definition post (payload : value) : Endpoint.Request :=
  {| Endpoint.method := lit "POST"; Endpoint.body := payload |}.

(** [{ prompt: "Write a poem", style: "creative", creativity: 8 }] *)
Definition poem_body : value :=
  JObj [ (lit "prompt", JStr (lit "Write a poem"));
         (lit "style", JStr (lit "creative"));
         (lit "creativity", JInt 8) ].

(** [{ prompt: "Write a poem", style: { toString: null },
       creativity: 8 }] *)
Definition unconvertible_body : value :=
  JObj [ (lit "prompt", JStr (lit "Write a poem"));
         (lit "style", JObj [ (lit "toString", JNull) ]);
         (lit "creativity", JInt 8) ].

(** [{ prompt: "Write a poem", style: ["formal", "brief"],
       creativity: 8 }] *)
Definition list_body : value :=
  JObj [ (lit "prompt", JStr (lit "Write a poem"));
         (lit "style", JArr [ JStr (lit "formal"); JStr (lit "brief") ]);
         (lit "creativity", JInt 8) ].

(** [{ prompt: "   ", style: "concise", creativity: 5 }] *)
Definition blank_body : value :=
  JObj [ (lit "prompt", JStr (lit "   "));
         (lit "style", JStr (lit "concise"));
         (lit "creativity", JInt 5) ].

(** The page as [index.html] loads it, with the given prompt typed in. *)
Definition page (typed : string) : Client.World :=
  {| Client.dom :=
       {| Client.promptEl_value := lit typed;
          Client.styleEl_value := lit "concise";
          Client.creativityEl_value := lit "5";
          Client.enhanceBtn_disabled := false;
          Client.resultEl_textContent := [];
          Client.loader_classList := [ lit "hidden" ] |};
     Client.log := [] |}.

(** A browser whose network answers every request the same way, and
    whose [Number] reads the decimal numerals that a range input holds. *)
Definition browser_with (answer : value + Client.Response) : Client.Browser :=
  {| Client.fetch_settles := fun _ _ => answer;
     Client.Number := fun s =>
       match digits_value 0 s with
       | Some n => JInt (Z.of_N n)
       | None => JNum NaN
       end;
     Client.JSON_stringify := fun _ => lit "{}" |}.

Definition network_down : value :=
  JObj [ (lit "name", JStr (lit "TypeError"));
         (lit "message", JStr (lit "Failed to fetch")) ].

End Examples.

(* ===================================================================== *)
(** ** The wording of the specification                                   *)
(* ===================================================================== *)

Module Spec.
Import JS Effects Endpoint.

(** The response to a request without a prompt, and nothing else. *)
Definition missing_prompt_only : (value + unit) * Trace :=
  (inr tt, [ Respond 400 (Some (error_body "Missing prompt")) ]).

(** "Absent, or present but empty or whitespace-only". *)
Definition absent_or_blank (p : option value) : Prop :=
  p = None \/ exists s, p = Some (JStr s) /\ trim s = [].

(** "Submitting with [prompt] absent, or present but empty or
    whitespace-only, yields 400 and no call is made to the external
    API." *)
Definition blank_prompt_is_rejected : Prop :=
  forall (rt : Runtime) (sdk : OpenAIConstructor) (api : CompletionAPI)
         (env : ProcessEnv) (props : list (js_string * value)),
    absent_or_blank (lookup (lit "prompt") props) ->
    serve env {| method := lit "POST"; body := JObj props |}
    = missing_prompt_only.

(** "[temperature] equals [creativity/10] when [creativity] is a truthy
    numeric input, and defaults to 0.5 when [creativity] is absent or
    zero/falsy." *)
Definition expected_temperature (creativity : value) : option number :=
  match creativity with
  | JNum n => Some (if truthy creativity then tenth n else Finite (5 # 10))
  | _ => if truthy creativity then None else Some (Finite (5 # 10))
  end.



(** "For every POST request with a truthy prompt, the endpoint
    constructs a single instruction string and submits exactly one
    completion request whose message list is a system-role message
    carrying that instruction followed by a user-role message carrying
    the raw prompt." *)
Definition every_valid_post_is_submitted : Prop :=
  forall (rt : Runtime) (sdk : OpenAIConstructor) (api : CompletionAPI)
         (env : ProcessEnv) (req : Request),
    method req = lit "POST" ->
    truthy (field req "prompt") = true ->
    exists (client : OpenAI) (params : CompletionParams)
           (instruction : js_string),
      api_calls (snd (serve env req)) = [(client, params)]
      /\ messages params
         = [ {| role := lit "system"; content := JStr instruction |};
             {| role := lit "user"; content := field req "prompt" |} ].

(** The strings of a list, with a comma between one and the next. *)
Definition comma_separated (parts : list js_string) : js_string :=
  match parts with
  | [] => []
  | p :: rest =>
      p ++ flat_map (fun q => lit "," ++ q) rest
  end.

End Spec.

(* ===================================================================== *)
(** ** The request that the form sends                                    *)
(* ===================================================================== *)

Module ClientRequest.
Import JS Effects Client.

Section Payload.
Context {browser : Browser}.

(** The object literal of lines 130 to 134, on the page as it is when
    the [try] block starts. *)
Definition form_payload (d : Dom) : value :=
  JObj [ (lit "prompt", JStr (trim (promptEl_value d)));
         (lit "style", JStr (styleEl_value d));
         (lit "creativity", Number (creativityEl_value d)) ].

(** The second argument of the [fetch] of lines 127 to 135. *)
Definition form_init (d : Dom) : RequestInit :=
  {| method := lit "POST";
     headers := [ (lit "Content-Type", lit "application/json") ];
     body := JSON_stringify (form_payload d) |}.
End Payload.

(** The last code unit of a string. *)
Definition last_unit (s : js_string) : option code_unit :=
  match rev s with
  | [] => None
  | c :: _ => Some c
  end.

Definition alerts (l : list Event) : list js_string :=
  flat_map (fun e => match e with
                     | Alert message => [message]
                     | Fetch _ _ => []
                     end) l.

End ClientRequest.

(* ===================================================================== *)
(** ** The bodies that the endpoint sends                                 *)
(* ===================================================================== *)

Module Bodies.
Import JS Effects Endpoint.

(** A response is one of five: the empty 200 of OPTIONS; the 200 of a
    POST, with a truthy value or the empty string under
    [enhancedPrompt]; and the three errors with their literal
    messages. *)
Definition response_shape (req : Request) (code : Z) (payload : option value)
  : Prop :=
  (code = 200%Z /\ payload = None /\ method req = lit "OPTIONS")
  \/ (code = 200%Z /\ method req = lit "POST"
      /\ exists v,
          payload = Some (JObj [(lit "enhancedPrompt", v)])
          /\ (truthy v = true \/ v = JStr []))
  \/ (code = 400%Z /\ payload = Some (error_body "Missing prompt"))
  \/ (code = 405%Z /\ payload = Some (error_body "Method not allowed"))
  \/ (code = 500%Z /\ payload = Some (error_body "Failed to enhance prompt")).

End Bodies.

(* ===================================================================== *)
(** ** The copy button of [js/script.js], lines 152 to 160                *)
(* ===================================================================== *)

Module CopyButton.
Import JS Effects.

(** The callback of line 156, [() => (copyBtn.textContent = 'Copy')]. *)
Inductive Callback : Type :=
| RestoreLabel.

(** A pending [setTimeout]. *)
Record Timer : Type :=
  { callback : Callback;
    delay : Z }.

(** The page of the form controller, the label of the copy button, the
    timers that have not fired yet, oldest first, and the texts handed to
    [navigator.clipboard.writeText], oldest first. *)
Record World : Type :=
  { page : Client.World;
    copyBtn_textContent : js_string;
    timers : list Timer;
    written : list js_string }.

(** The promise that [navigator.clipboard.writeText(text)] returns. *)
Class Clipboard : Type :=
  { writeText_settles : js_string -> value + value }.

Definition K : Type -> Type := JSM World.

Definition set_copyBtn_textContent (s : js_string) (w : World) : World :=
  {| page := page w;
     copyBtn_textContent := s;
     timers := timers w;
     written := written w |}.

Definition add_timer (t : Timer) (w : World) : World :=
  {| page := page w;
     copyBtn_textContent := copyBtn_textContent w;
     timers := timers w ++ [t];
     written := written w |}.

Definition drop_timer (w : World) : World :=
  {| page := page w;
     copyBtn_textContent := copyBtn_textContent w;
     timers := tl (timers w);
     written := written w |}.

Definition add_written (text : js_string) (w : World) : World :=
  {| page := page w;
     copyBtn_textContent := copyBtn_textContent w;
     timers := timers w;
     written := written w ++ [text] |}.

Definition with_page (p : Client.World) (w : World) : World :=
  {| page := p;
     copyBtn_textContent := copyBtn_textContent w;
     timers := timers w;
     written := written w |}.

Section Handlers.
Context {rt : Runtime} {clipboard : Clipboard}.

(** [await navigator.clipboard.writeText(data)] *)
Definition writeText (data : value) : K value :=
  text <- evaluate (ToString data) ;;
  update (add_written text) ;;
  await (writeText_settles text).

(** [setTimeout(callback, ms)] *)
Definition setTimeout (cb : Callback) (ms : Z) : K unit :=
  update (add_timer {| callback := cb; delay := ms |}).

(** The listener of the copy button. *)
Definition on_copy : K unit :=
  try_catch
    (w <- get ;;
     let shown := Client.resultEl_textContent (Client.dom (page w)) in
     _ <- writeText (js_or (JStr shown) (JStr (lit ""))) ;;
     update (set_copyBtn_textContent (lit "Copied!")) ;;
     setTimeout RestoreLabel 1500)
    (fun err => update (set_copyBtn_textContent (lit "Failed"))).

(** A callback, when its timer fires. *)
Definition invoke (cb : Callback) : K unit :=
  match cb with
  | RestoreLabel => update (set_copyBtn_textContent (lit "Copy"))
  end.

(** The oldest pending timer fires; all the timers of the script have the
    same delay, so they fire in the order they were set. *)
Definition fire_next : K unit :=
  w <- get ;;
  match timers w with
  | [] => ret tt
  | t :: _ => update drop_timer ;; invoke (callback t)
  end.

(** The listener of the trigger, [enhancePrompt], on the page. *)
Definition on_enhance {browser : Client.Browser} : K unit :=
  w <- get ;;
  let (r, p) := Client.click (page w) in
  update (with_page p) ;;
  match r with
  | inl e => throw e
  | inr u => ret u
  end.
End Handlers.

End CopyButton.

(* ===================================================================== *)
(** ** The handler as [prompt-enhancer-tasks.md] lists it, lines 173-206  *)
(* ===================================================================== *)

Module Listing.
Import JS Effects.

(** The argument of [openai.chat.completions.create] in the listing. *)
Record CompletionParams : Type :=
  { model : js_string;
    messages : list Endpoint.Message;
    max_tokens : Z;
    temperature : number }.

Inductive Event : Type :=
| Create (client : Endpoint.OpenAI) (params : CompletionParams)
| ConsoleError (args : list value)
| Respond (status : Z) (payload : option value).

Class CompletionAPI : Type :=
  { chat_completions_create :
      Endpoint.OpenAI -> CompletionParams -> value + value }.

(** The numeric value of a non-empty string, an array or an object,
    which the embedding does not spell out. *)
Class Conversions : Type :=
  { ToNumber_other : value -> number }.

Definition Trace : Type := list Event.
Definition M : Type -> Type := JSM Trace.

Section Handler.
Context {rt : Runtime} {cv : Conversions}.
Context {sdk : Endpoint.OpenAIConstructor} {api : CompletionAPI}.
Variable env : Endpoint.ProcessEnv.

(** [ToNumber], as [/] applies it to its left operand. *)
Definition ToNumber (v : value) : number :=
  match v with
  | JUndefined => NaN
  | JNull => Finite 0
  | JBool true => Finite 1
  | JBool false => Finite 0
  | JNum n => n
  | JStr [] => Finite 0
  | other => ToNumber_other other
  end.

(** [(creativity || 5) / 10], line 197.  The division is reached only
    after the template literal of line 188 has converted [creativity] to
    a string, so its conversion to a number does not throw there. *)
Definition listed_temperature (creativity : value) : number :=
  tenth (ToNumber (js_or creativity (JInt 5))).

Definition emit (e : Event) : M unit :=
  update (fun trace => trace ++ [e]).

Definition res_status_end (code : Z) : M unit :=
  emit (Respond code None).

Definition res_status_json (code : Z) (payload : value) : M unit :=
  emit (Respond code (Some payload)).

Definition console_error (args : list value) : M unit :=
  emit (ConsoleError args).

Definition create (openai : Endpoint.OpenAI) (params : CompletionParams)
  : M value :=
  emit (Create openai params) ;;
  await (chat_completions_create openai params).

(** The object literal of lines 190 to 198, around the instruction of
    line 188. *)
Definition completion_request
    (prompt : value) (instruction : js_string) (creativity : value)
  : CompletionParams :=
  {| model := lit "gpt-3.5-turbo";
     messages :=
       [ {| Endpoint.role := lit "system";
            Endpoint.content := JStr instruction |};
         {| Endpoint.role := lit "user"; Endpoint.content := prompt |} ];
     max_tokens := 500;
     temperature := listed_temperature creativity |}.

(** The [try] block, lines 183 to 201. *)
Definition enhance (req : Endpoint.Request) : M unit :=
  let source := js_or (Endpoint.body req) (JObj []) in
  prompt <- destructure source (lit "prompt") ;;
  style <- destructure source (lit "style") ;;
  creativity <- destructure source (lit "creativity") ;;
  if negb (truthy prompt)
  then res_status_json 400 (Endpoint.error_body "Missing prompt")
  else
    openai <-
      evaluate (Endpoint.new_OpenAI (Endpoint.client_options env)) ;;
    instruction <-
      evaluate (Endpoint.enhancementInstruction style creativity) ;;
    completion <-
      create openai (completion_request prompt instruction creativity) ;;
    choices <- GetV completion (lit "choices") ;;
    let enhancedPrompt := Endpoint.first_content choices in
    res_status_json 200 (JObj [ (lit "enhancedPrompt", enhancedPrompt) ]).

(** The [catch] block, lines 202 to 205. *)
Definition on_error (error : value) : M unit :=
  console_error [ JStr (lit "Error enhancing prompt:"); error ] ;;
  res_status_json 500 (Endpoint.error_body "Failed to enhance prompt").

(** [module.exports = async (req, res) => ...], lines 173 to 206. *)
Definition handler (req : Endpoint.Request) : M unit :=
  if js_string_eqb (Endpoint.method req) (lit "OPTIONS")
  then res_status_end 200
  else if negb (js_string_eqb (Endpoint.method req) (lit "POST"))
  then res_status_json 405 (Endpoint.error_body "Method not allowed")
  else try_catch (enhance req) on_error.

Definition serve (req : Endpoint.Request) : (value + unit) * Trace :=
  run (handler req) [].
End Handler.

Definition responses (trace : Trace) : list (Z * option value) :=
  flat_map (fun e => match e with
                     | Respond code payload => [(code, payload)]
                     | _ => []
                     end) trace.

Definition api_calls (trace : Trace)
  : list (Endpoint.OpenAI * CompletionParams) :=
  flat_map (fun e => match e with
                     | Create client params => [(client, params)]
                     | _ => []
                     end) trace.

End Listing.

(* ===================================================================== *)
(** ** More concrete runtimes                                             *)
(* ===================================================================== *)

Module Scenarios.
Import JS Effects.

(** A clipboard that accepts every text. *)
Definition clipboard_accepts : CopyButton.Clipboard :=
  {| CopyButton.writeText_settles := fun _ => inr JUndefined |}.

(** A clipboard that refuses every text. *)
Definition not_allowed : value :=
  JObj [ (lit "name", JStr (lit "NotAllowedError"));
         (lit "message", JStr (lit "Write permission denied.")) ].

Definition clipboard_refuses : CopyButton.Clipboard :=
  {| CopyButton.writeText_settles := fun _ => inl not_allowed |}.

(** The script as it starts on [index.html], with a given result. *)
Definition script (shown : string) : CopyButton.World :=
  {| CopyButton.page :=
       {| Client.dom :=
            {| Client.promptEl_value := lit "Write a poem";
               Client.styleEl_value := lit "creative";
               Client.creativityEl_value := lit "8";
               Client.enhanceBtn_disabled := false;
               Client.resultEl_textContent := lit shown;
               Client.loader_classList := [ lit "hidden" ] |};
          Client.log := [] |};
     CopyButton.copyBtn_textContent := lit "Copy";
     CopyButton.timers := [];
     CopyButton.written := [] |}.

(** A network that answers 200 with the given enhanced prompt. *)
Definition answers_ok (text : string) : value + Client.Response :=
  inr {| Client.ok := true;
         Client.json :=
           inr (JObj [ (lit "enhancedPrompt", JStr (lit text)) ]) |}.

(** A network that answers with an error status and message. *)
Definition answers_error (message : string) : value + Client.Response :=
  inr {| Client.ok := false;
         Client.json := inr (JObj [ (lit "error", JStr (lit message)) ]) |}.

(** Strings, arrays and objects are not divided in the examples. *)
Definition numbers_only : Listing.Conversions :=
  {| Listing.ToNumber_other := fun _ => NaN |}.

Definition listed_api_answers (text : string) : Listing.CompletionAPI :=
  {| Listing.chat_completions_create :=
       fun _ _ => inr (Examples.completion_with text) |}.

End Scenarios.

(* ===================================================================== *)
(** ** Properties of the JavaScript fragment                              *)
(* ===================================================================== *)

Module JSFacts.
Import JS.

Lemma js_string_eqb_refl (a : js_string) : js_string_eqb a a = true.
Proof.
  induction a as [| c a IH]; simpl.
  - reflexivity.
  - rewrite N.eqb_refl. exact IH.
Qed.

Lemma js_string_eqb_eq (a b : js_string) :
  js_string_eqb a b = true <-> a = b.
Proof.
  split.
  - revert b. induction a as [| c a IH]; intros [| d b] H; simpl in H;
      try discriminate; try reflexivity.
    apply andb_prop in H. destruct H as [Hc Ha].
    apply N.eqb_eq in Hc. apply IH in Ha. congruence.
  - intros ->. apply js_string_eqb_refl.
Qed.

Lemma js_string_eqb_neq (a b : js_string) :
  js_string_eqb a b = false <-> a <> b.
Proof.
  split.
  - intros H E. apply js_string_eqb_eq in E. congruence.
  - intros H. destruct (js_string_eqb a b) eqn:E; [| reflexivity].
    apply js_string_eqb_eq in E. contradiction.
Qed.

(** [req.body || {}] is never [undefined] or [null]. *)
Lemma or_object_not_nullish (v : value) :
  is_nullish (js_or v (JObj [])) = false.
Proof.
  unfold js_or. destruct (truthy v) eqn:T; [| reflexivity].
  destruct v; simpl in T; try discriminate; reflexivity.
Qed.

(** Only an object has a truthy property under a name that is neither
    [length] nor an array index. *)
Lemma Get_named_truthy (v : value) (k : js_string) :
  js_string_eqb k (lit "length") = false ->
  array_index k = None ->
  truthy (Get v k) = true ->
  exists props, v = JObj props.
Proof.
  intros Hlen Hidx H. destruct v; simpl in H; try discriminate.
  - rewrite Hlen, Hidx in H. discriminate.
  - rewrite Hlen, Hidx in H. discriminate.
  - eexists. reflexivity.
Qed.

Lemma Get_named_not_object (v : value) (k : js_string) :
  js_string_eqb k (lit "length") = false ->
  array_index k = None ->
  (forall props, v <> JObj props) ->
  Get v k = JUndefined.
Proof.
  intros Hlen Hidx H. destruct v; simpl; try reflexivity.
  - rewrite Hlen, Hidx. reflexivity.
  - rewrite Hlen, Hidx. reflexivity.
  - exfalso. eapply H. reflexivity.
Qed.

Lemma js_or_falsy (a b : value) : truthy a = false -> js_or a b = b.
Proof. unfold js_or. intros ->. reflexivity. Qed.

Lemma js_or_truthy (a b : value) : truthy a = true -> js_or a b = a.
Proof. unfold js_or. intros ->. reflexivity. Qed.

(** A string converts to itself. *)
Lemma ToString_string {rt : Runtime} (s : js_string) :
  ToString (JStr s) = inr s.
Proof. reflexivity. Qed.

(** An integer of magnitude up to 2^53 converts to its decimal digits. *)
Lemma ToString_integer {rt : Runtime} (n : Z) :
  (Z.abs n <= 2 ^ 53)%Z ->
  ToString (JInt n) = inr (decimal_of_Z n).
Proof.
  intros H. unfold JInt. cbn [ToString]. unfold Number_toString.
  replace (Qred (inject_Z n)) with (inject_Z n).
  - cbn [inject_Z Qden Qnum]. apply Z.leb_le in H.
    rewrite Pos.eqb_refl, H. reflexivity.
  - symmetry. apply Qred_identity. cbn [inject_Z Qden Qnum].
    apply Z.gcd_1_r.
Qed.

Lemma ToString_number {rt : Runtime} (q : Q) (n : Z) :
  q == inject_Z n -> (Z.abs n <= 2 ^ 53)%Z ->
  ToString (JNum (Finite q)) = inr (decimal_of_Z n).
Proof.
  intros Hq Hn. rewrite <- (ToString_integer n Hn). unfold JInt.
  cbn [ToString]. unfold Number_toString.
  rewrite (Qred_complete _ _ Hq). reflexivity.
Qed.

(** An object converts to ["[object Object]"], unless a key [toString]
    of its own makes the conversion throw. *)
Lemma ToString_object {rt : Runtime} (props : list (js_string * value)) :
  ToString (JObj props)
  = match lookup (lit "toString") props with
    | Some _ => inl not_primitive
    | None => inr (lit "[object Object]")
    end.
Proof. reflexivity. Qed.

Lemma join_comma_separated (parts : list js_string) :
  join (lit ",") parts = Spec.comma_separated parts.
Proof.
  destruct parts as [| p rest]; [reflexivity |].
  unfold Spec.comma_separated. revert p.
  induction rest as [| q rest IH]; intros p.
  - cbn. symmetry. apply app_nil_r.
  - change (join (lit ",") (p :: q :: rest))
      with (p ++ lit "," ++ join (lit ",") (q :: rest)).
    rewrite IH. cbn [flat_map]. rewrite <- app_assoc. reflexivity.
Qed.

(** An array of strings converts to the strings with commas between
    them. *)
Lemma ToString_strings {rt : Runtime} (parts : list js_string) :
  ToString (JArr (List.map JStr parts)) = inr (Spec.comma_separated parts).
Proof.
  rewrite <- join_comma_separated. cbn [ToString].
  match goal with
  | |- match ?f (List.map JStr parts) with _ => _ end = _ =>
      assert (E : f (List.map JStr parts) = inr parts)
  end.
  { induction parts as [| p parts IH]; [reflexivity |].
    cbn [List.map is_nullish ToString]. rewrite IH. reflexivity. }
  rewrite E. reflexivity.
Qed.

(** What is truthy is neither [undefined] nor [null]. *)
Lemma truthy_not_nullish (v : value) : truthy v = true -> is_nullish v = false.
Proof. destruct v; try discriminate; reflexivity. Qed.

(** The conversions, on one value of each kind. *)
Example ToString_of_each_kind :
  let rt := {| Number_toString_other := fun _ => lit "0.5" |} in
  ToString JUndefined = inr (lit "undefined")
  /\ ToString JNull = inr (lit "null")
  /\ ToString (JBool true) = inr (lit "true")
  /\ ToString (JBool false) = inr (lit "false")
  /\ ToString (JInt (-12)) = inr (lit "-12")
  /\ ToString (JNum (Finite (1 # 2))) = inr (lit "0.5")
  /\ ToString (JNum PosInfinity) = inr (lit "Infinity")
  /\ ToString (JNum NaN) = inr (lit "NaN")
  /\ ToString (JStr (lit "creative")) = inr (lit "creative")
  /\ ToString (JArr []) = inr (lit "")
  /\ ToString (JArr [JStr (lit "a"); JNull; JArr [JInt 1; JInt 2]; JObj []])
     = inr (lit "a,,1,2,[object Object]")
  /\ ToString (JObj [(lit "tone", JStr (lit "dry"))])
     = inr (lit "[object Object]")
  /\ ToString (JObj [(lit "toString", JNull)]) = inl not_primitive
  /\ ToString (JArr [JStr (lit "a"); JObj [(lit "toString", JInt 1)]])
     = inl not_primitive.
Proof. cbv zeta. repeat split. Qed.

End JSFacts.

(* ===================================================================== *)
(** ** How computations run                                               *)
(* ===================================================================== *)

Create Rewrite HintDb run.

Module EffectsFacts.
Import JS Effects.

Section Run.
Variable W : Type.
Implicit Types w : W.

Lemma run_ret A (a : A) w : run (ret a : JSM W A) w = (inr a, w).
Proof. reflexivity. Qed.

Lemma run_bind A B (m : JSM W A) (f : A -> JSM W B) w :
  run (bind m f) w =
  match run m w with
  | (inl e, w') => (inl e, w')
  | (inr a, w') => run (f a) w'
  end.
Proof.
  unfold run. cbn.
  destruct (runState (unEitherT m) w) as [[e | a] w']; reflexivity.
Qed.

Lemma run_throw A (e : value) w : run (throw e : JSM W A) w = (inl e, w).
Proof. reflexivity. Qed.

Lemma run_get w : run (get : JSM W W) w = (inr w, w).
Proof. reflexivity. Qed.

Lemma run_update (f : W -> W) w : run (update f) w = (inr tt, f w).
Proof. reflexivity. Qed.

(** The handler of a [catch] starts in the world the [throw] left. *)
Lemma run_try_catch A (m : JSM W A) (h : value -> JSM W A) w :
  run (try_catch m h) w =
  match run m w with
  | (inl e, w') => run (h e) w'
  | (inr a, w') => (inr a, w')
  end.
Proof.
  unfold run, try_catch. cbn.
  destruct (runState (unEitherT m) w) as [[e | a] w']; reflexivity.
Qed.

(** A [finally] block runs after a return and after a throw. *)
Lemma run_try_finally A (m : JSM W A) (fin : JSM W unit) w :
  run (try_finally m fin) w =
  let (r, w') := run m w in
  match run fin w' with
  | (inl e, w'') => (inl e, w'')
  | (inr _, w'') => (r, w'')
  end.
Proof.
  unfold run, try_finally. cbn.
  destruct (runState (unEitherT m) w) as [r w'].
  destruct (runState (unEitherT fin) w') as [[e | u] w'']; reflexivity.
Qed.

Lemma run_await_resolved (v : value) w :
  run (await (inr v)) w = (inr v, w).
Proof. reflexivity. Qed.

Lemma run_await_rejected (e : value) w :
  run (await (inl e)) w = (inl e, w).
Proof. reflexivity. Qed.

Lemma run_evaluate_value A (a : A) w :
  run (evaluate (inr a)) w = (inr a, w).
Proof. reflexivity. Qed.

Lemma run_evaluate_thrown A (e : value) w :
  run (evaluate (inl e) : JSM W A) w = (inl e, w).
Proof. reflexivity. Qed.
End Run.

#[export] Hint Rewrite run_ret run_bind run_throw run_get run_update
  run_try_catch run_try_finally run_await_resolved run_await_rejected
  run_evaluate_value run_evaluate_thrown : run.

End EffectsFacts.

(* ===================================================================== *)
(** ** Properties of the endpoint                                         *)
(* ===================================================================== *)

Module EndpointFacts.
Import JS Effects Endpoint JSFacts EffectsFacts.

Section Facts.
Context {rt : Runtime} {sdk : OpenAIConstructor} {api : CompletionAPI}.
Variable env : ProcessEnv.

(** The [try] block, path by path. *)
Lemma enhance_run (req : Request) (tr : Trace) :
  run (enhance env req) tr =
  let prompt := field req "prompt" in
  if truthy prompt then
    match new_OpenAI (client_options env) with
    | inl error => (inl error, tr)
    | inr openai =>
        match enhancementInstruction (field req "style")
                (field req "creativity") with
        | inl error => (inl error, tr)
        | inr instruction =>
            let params := completion_request prompt instruction in
            match chat_completions_create openai params with
            | inl reason => (inl reason, tr ++ [Create openai params])
            | inr completion =>
                if is_nullish completion
                then (inl (TypeError (lit "Cannot read properties of "
                                        ++ nullish_name completion
                                        ++ lit " (reading '" ++ lit "choices"
                                        ++ lit "')")),
                      tr ++ [Create openai params])
                else (inr tt,
                      (tr ++ [Create openai params])
                        ++ [Respond 200
                              (Some (JObj [(lit "enhancedPrompt",
                                            first_content
                                              (Get completion
                                                 (lit "choices")))]))])
            end
        end
    end
  else (inr tt, tr ++ [Respond 400 (Some (error_body "Missing prompt"))]).
Proof.
  unfold enhance, field, destructure.
  rewrite or_object_not_nullish.
  cbv zeta. autorewrite with run.
  destruct (truthy (Get (js_or (body req) (JObj [])) (lit "prompt")));
    cbn [negb]; unfold create, GetV, res_status_json, emit;
    autorewrite with run; [| reflexivity].
  destruct (new_OpenAI (client_options env)) as [error | openai];
    autorewrite with run; [reflexivity |].
  destruct enhancementInstruction as [error | instruction];
    autorewrite with run; [reflexivity |].
  destruct chat_completions_create as [reason | completion];
    autorewrite with run; [reflexivity |].
  destruct (is_nullish completion); autorewrite with run; reflexivity.
Qed.

Lemma serve_options (req : Request) :
  method req = lit "OPTIONS" ->
  serve env req = (inr tt, [Respond 200 None]).
Proof.
  intros H. unfold serve, handler. rewrite H. reflexivity.
Qed.

Lemma serve_unsupported (req : Request) :
  method req <> lit "OPTIONS" ->
  method req <> lit "POST" ->
  serve env req
  = (inr tt, [Respond 405 (Some (error_body "Method not allowed"))]).
Proof.
  intros HO HP. unfold serve, handler.
  apply js_string_eqb_neq in HO. apply js_string_eqb_neq in HP.
  rewrite HO, HP. reflexivity.
Qed.

(** A POST request runs the [try] block; what it throws goes to the
    console and a 500 response follows. *)
Lemma serve_post (req : Request) :
  method req = lit "POST" ->
  serve env req =
  match run (enhance env req) [] with
  | (inl error, tr) =>
      (inr tt,
       tr ++ [ConsoleError [JStr (lit "Error enhancing prompt:"); error];
              Respond 500 (Some (error_body "Failed to enhance prompt"))])
  | (inr u, tr) => (inr u, tr)
  end.
Proof.
  intros H. unfold serve, handler. rewrite H.
  change (js_string_eqb (lit "POST") (lit "OPTIONS")) with false.
  rewrite js_string_eqb_refl. cbn [negb]. cbv iota.
  rewrite run_try_catch.
  destruct (run (enhance env req) []) as [[error | u] tr]; [| reflexivity].
  unfold on_error, console_error, res_status_json, emit.
  autorewrite with run. rewrite <- app_assoc. reflexivity.
Qed.

Lemma field_of_object (props : list (js_string * value)) (k : string) :
  field {| method := lit "POST"; body := JObj props |} k
  = match lookup (lit k) props with
    | Some v => v
    | None => JUndefined
    end.
Proof. reflexivity. Qed.

Lemma field_truthy_body (req : Request) (k : string) :
  truthy (body req) = true -> field req k = Get (body req) (lit k).
Proof. intros H. unfold field. rewrite js_or_truthy by exact H. reflexivity. Qed.

Lemma field_falsy_body (req : Request) (k : string) :
  truthy (body req) = false -> field req k = JUndefined.
Proof. intros H. unfold field. rewrite js_or_falsy by exact H. reflexivity. Qed.

(** A POST request whose prompt is falsy is answered 400, and nothing
    else happens. *)
Lemma serve_falsy_prompt (req : Request) :
  method req = lit "POST" ->
  truthy (field req "prompt") = false ->
  serve env req
  = (inr tt, [Respond 400 (Some (error_body "Missing prompt"))]).
Proof.
  intros HP HF. rewrite (serve_post _ HP), enhance_run.
  cbv zeta. rewrite HF. reflexivity.
Qed.

(** A body that is not an object has no prompt. *)
Lemma prompt_of_non_object (req : Request) :
  (forall props, body req <> JObj props) ->
  field req "prompt" = JUndefined.
Proof.
  intros H. destruct (truthy (body req)) eqn:T.
  - rewrite (field_truthy_body _ _ T).
    apply Get_named_not_object; [reflexivity | reflexivity | exact H].
  - apply field_falsy_body. exact T.
Qed.

(** Claim C6.  Method precedence: a request with method OPTIONS is
    answered 200 with no body; a request whose method is neither
    OPTIONS nor POST is answered 405 with the body
    [{ error: 'Method not allowed' }]; in both cases the response is
    the only thing the handler does, so the completion API is not
    called. *)
Theorem method_precedence (req : Request) :
  (method req = lit "OPTIONS" ->
   serve env req = (inr tt, [Respond 200 None]))
  /\ (method req <> lit "OPTIONS" -> method req <> lit "POST" ->
      serve env req
      = (inr tt, [Respond 405 (Some (error_body "Method not allowed"))])).
Proof.
  split.
  - apply serve_options.
  - apply serve_unsupported.
Qed.

(** Claim C8.  A POST request whose body is absent or not an object,
    and a POST request whose prompt is any falsy value, makes the
    handler return normally with the 400 response
    [{ error: 'Missing prompt' }]: the destructuring of
    [req.body || {}] does not throw and the test is plain
    truthiness. *)
Theorem falsy_prompt_returns_400 (req : Request) :
  method req = lit "POST" ->
  (forall props, body req <> JObj props)
  \/ ((exists props, body req = JObj props)
      /\ truthy (Get (body req) (lit "prompt")) = false) ->
  serve env req
  = (inr tt, [Respond 400 (Some (error_body "Missing prompt"))]).
Proof.
  intros HP [H | [[props E] H]]; apply serve_falsy_prompt; try exact HP.
  - rewrite prompt_of_non_object by exact H. reflexivity.
  - rewrite field_truthy_body; [exact H |]. rewrite E. reflexivity.
Qed.

(** Claim C2, amended.  A POST request whose prompt field is absent, or
    present but the empty string, is answered 400 with the body
    [{ error: 'Missing prompt' }] and no call is made to the completion
    API. *)
Theorem absent_or_empty_prompt_is_rejected
    (props : list (js_string * value)) :
  lookup (lit "prompt") props = None
  \/ lookup (lit "prompt") props = Some (JStr []) ->
  serve env {| method := lit "POST"; body := JObj props |}
  = Spec.missing_prompt_only /\
  api_calls (snd (serve env {| method := lit "POST"; body := JObj props |})) = [].
Proof.
  intros H.
  assert (E : serve env {| method := lit "POST"; body := JObj props |}
              = Spec.missing_prompt_only).
  { apply serve_falsy_prompt; [reflexivity |].
    rewrite field_of_object. destruct H as [-> | ->]; reflexivity. }
  rewrite E. split; reflexivity.
Qed.

(** The template literal gives a string exactly when both conversions
    do. *)
Lemma instruction_built (style creativity : value) (s c : js_string) :
  ToString style = inr s ->
  ToString creativity = inr c ->
  enhancementInstruction style creativity = inr (instruction_text s c).
Proof. intros Hs Hc. unfold enhancementInstruction. rewrite Hs, Hc. reflexivity. Qed.

Lemma instruction_built_inv (style creativity : value) (text : js_string) :
  enhancementInstruction style creativity = inr text ->
  exists s c,
    ToString style = inr s /\ ToString creativity = inr c
    /\ text = instruction_text s c.
Proof.
  unfold enhancementInstruction.
  destruct (ToString style) as [e | s]; [discriminate |].
  destruct (ToString creativity) as [e | c]; [discriminate |].
  intros [= <-]. eauto.
Qed.

(** The exceptions of the [try] block, in the order of the code: what
    the constructor throws; what the conversion of [style] or of
    [creativity] throws in the template literal; the rejection of the
    completion call; and the read of [choices] on a completion that is
    [undefined] or [null].  Only the last two follow a call, and none
    follows a response. *)
Lemma enhance_throws (req : Request) (error : value) (tr : Trace) :
  run (enhance env req) [] = (inl error, tr) ->
  truthy (field req "prompt") = true
  /\ responses tr = []
  /\ ((new_OpenAI (client_options env) = inl error /\ tr = [])
      \/ (enhancementInstruction (field req "style")
            (field req "creativity") = inl error /\ tr = [])
      \/ exists openai instruction,
           new_OpenAI (client_options env) = inr openai
           /\ enhancementInstruction (field req "style")
                (field req "creativity") = inr instruction
           /\ tr = [Create openai
                      (completion_request (field req "prompt") instruction)]
           /\ (chat_completions_create openai
                 (completion_request (field req "prompt") instruction)
               = inl error
               \/ exists completion,
                    chat_completions_create openai
                      (completion_request (field req "prompt") instruction)
                    = inr completion
                    /\ is_nullish completion = true)).
Proof.
  rewrite enhance_run. cbv zeta.
  destruct (truthy (field req "prompt")); [| discriminate].
  destruct (new_OpenAI (client_options env)) as [e | openai] eqn:N.
  { intros [= <- <-]. do 2 (split; [reflexivity |]). left. auto. }
  destruct enhancementInstruction as [e | instruction] eqn:I.
  { intros [= <- <-]. do 2 (split; [reflexivity |]). right; left. auto. }
  destruct chat_completions_create as [reason | completion] eqn:E.
  - intros [= <- <-]. do 2 (split; [reflexivity |]). do 2 right.
    exists openai, instruction. auto.
  - destruct (is_nullish completion) eqn:C; [| discriminate].
    intros [= <- <-]. do 2 (split; [reflexivity |]). do 2 right.
    exists openai, instruction. do 3 (split; [reflexivity |]).
    right. exists completion. auto.
Qed.

(** A POST request with a truthy prompt makes exactly one call, once the
    client is constructed and the instruction is built. *)
Lemma serve_calls_once (req : Request)
    (client : OpenAI) (instruction : js_string) :
  method req = lit "POST" ->
  truthy (field req "prompt") = true ->
  new_OpenAI (client_options env) = inr client ->
  enhancementInstruction (field req "style") (field req "creativity")
  = inr instruction ->
  api_calls (snd (serve env req))
  = [(client, completion_request (field req "prompt") instruction)].
Proof.
  intros HP HT HN HI. rewrite (serve_post _ HP), enhance_run. cbv zeta.
  rewrite HT, HN, HI.
  destruct chat_completions_create as [reason | completion];
    [reflexivity |].
  destruct (is_nullish completion); reflexivity.
Qed.

(** Every call that is made comes from the constructed client and
    carries the request of lines 21 to 28. *)
Lemma serve_call_is_request (req : Request)
    (client : OpenAI) (params : CompletionParams) :
  In (Create client params) (snd (serve env req)) ->
  method req = lit "POST"
  /\ truthy (field req "prompt") = true
  /\ new_OpenAI (client_options env) = inr client
  /\ exists instruction,
      enhancementInstruction (field req "style") (field req "creativity")
      = inr instruction
      /\ params = completion_request (field req "prompt") instruction.
Proof.
  destruct (js_string_eqb (method req) (lit "OPTIONS")) eqn:HO.
  { apply js_string_eqb_eq in HO. rewrite (serve_options _ HO).
    intros [H | []]. discriminate H. }
  destruct (js_string_eqb (method req) (lit "POST")) eqn:HP.
  2:{ apply js_string_eqb_neq in HO, HP.
      rewrite (serve_unsupported _ HO HP). intros [H | []]. discriminate H. }
  apply js_string_eqb_eq in HP. rewrite (serve_post _ HP), enhance_run.
  cbv zeta.
  destruct (truthy (field req "prompt"));
    [| intros [H | []]; discriminate H].
  destruct (new_OpenAI (client_options env)) as [e | openai];
    [intros [H | [H | []]]; discriminate H |].
  destruct enhancementInstruction as [e | instruction];
    [intros [H | [H | []]]; discriminate H |].
  destruct chat_completions_create as [reason | completion];
    [| destruct (is_nullish completion)];
    cbn [snd app In]; intros H;
    repeat match goal with
           | H : _ \/ _ |- _ => destruct H as [H | H]
           | H : False |- _ => destruct H
           end;
    try discriminate; injection H as <- <-; eauto 6.
Qed.




(** Claim C3.  On every call of the completion API that the handler
    makes, the model identifier it sends is the empty string. *)
Theorem model_is_empty_string (req : Request)
    (client : OpenAI) (params : CompletionParams) :
  In (Create client params) (snd (serve env req)) ->
  model params = lit "".
Proof.
  intros H.
  destruct (serve_call_is_request _ _ _ H) as (_ & _ & _ & i & _ & ->).
  reflexivity.
Qed.



(** Claim C7, amended.  For a POST request with a truthy prompt, once
    the client is constructed and [style] and [creativity] are converted
    to strings, the handler makes exactly one completion call; its
    message list is a system message carrying the instruction of line
    19 around those two strings, followed by a user message carrying
    the prompt as it was received; and the string of a string [style]
    is that string, the string of a list of strings is its members with
    commas between them, and the string of an integer [creativity] of
    magnitude up to 2^53 is its decimal digits. *)
Theorem one_call_with_instruction_and_prompt
    (req : Request) (client : OpenAI) (style creativity : js_string) :
  method req = lit "POST" ->
  truthy (field req "prompt") = true ->
  new_OpenAI (client_options env) = inr client ->
  ToString (field req "style") = inr style ->
  ToString (field req "creativity") = inr creativity ->
  (exists params,
      api_calls (snd (serve env req)) = [(client, params)]
      /\ messages params
         = [ {| role := lit "system";
                content :=
                  JStr (lit "Enhance the following prompt using " ++ style
                          ++ lit " style with creativity level "
                          ++ creativity ++ lit "/10." ++ nl
                          ++ lit "Apply prompt engineering best practices to make it more effective for AI interaction."
                          ++ nl
                          ++ lit "Return only the enhanced prompt without any additional explanations.") |};
             {| role := lit "user"; content := field req "prompt" |} ])
  /\ (forall s, field req "style" = JStr s -> style = s)
  /\ (forall parts,
         field req "style" = JArr (List.map JStr parts) ->
         style = Spec.comma_separated parts)
  /\ (forall q n,
         field req "creativity" = JNum (Finite q) ->
         q == inject_Z n -> (Z.abs n <= 2 ^ 53)%Z ->
         creativity = decimal_of_Z n).
Proof.
  intros HP HT HK HS HC. split; [| split; [| split]].
  - eexists. split.
    + apply (serve_calls_once _ HP HT HK (instruction_built _ _ HS HC)).
    + reflexivity.
  - intros s E. rewrite E, ToString_string in HS. congruence.
  - intros parts E. rewrite E, ToString_strings in HS. congruence.
  - intros q n E Hq Hn. rewrite E, (ToString_number Hq Hn) in HC.
    congruence.
Qed.

(** The temperature of every call is the constant of line 27. *)
Lemma temperature_is_constant (req : Request)
    (client : OpenAI) (params : CompletionParams) :
  In (Create client params) (snd (serve env req)) ->
  temperature params = Finite (7 # 10).
Proof.
  intros H.
  destruct (serve_call_is_request _ _ _ H) as (_ & _ & _ & i & _ & ->).
  reflexivity.
Qed.
End Facts.


(** *** The claims on concrete requests *)

Import Examples.

Lemma method_precedence_witness :
  (serve (rt := integers_only) (sdk := openai_v4) (api := api_answers "ok") env_with_key
     {| method := lit "OPTIONS"; body := JUndefined |}
   = (inr tt, [Respond 200 None]))
  /\ (serve (rt := integers_only) (sdk := openai_v4) (api := api_answers "ok") env_with_key
        {| method := lit "GET"; body := JUndefined |}
      = (inr tt, [Respond 405 (Some (error_body "Method not allowed"))])).
Proof.
  split.
  - apply (proj1 (method_precedence (rt := integers_only) (sdk := openai_v4)
                    (api := api_answers "ok") env_with_key
                    {| method := lit "OPTIONS"; body := JUndefined |})).
    reflexivity.
  - apply (proj2 (method_precedence (rt := integers_only) (sdk := openai_v4)
                    (api := api_answers "ok") env_with_key
                    {| method := lit "GET"; body := JUndefined |}));
      vm_compute; discriminate.
Defined.

Lemma falsy_prompt_returns_400_witness :
  serve (rt := integers_only) (sdk := openai_v4) (api := api_answers "ok") env_with_key
    (post (JObj [(lit "prompt", JInt 0)]))
  = (inr tt, [Respond 400 (Some (error_body "Missing prompt"))]).
Proof.
  apply (falsy_prompt_returns_400 (rt := integers_only) (sdk := openai_v4)
           (api := api_answers "ok") env_with_key
           (post (JObj [(lit "prompt", JInt 0)]))).
  - reflexivity.
  - right. split; [eexists; reflexivity | reflexivity].
Defined.

Lemma absent_or_empty_prompt_is_rejected_witness :
  serve (rt := integers_only) (sdk := openai_v4) (api := api_answers "ok") env_with_key
    {| method := lit "POST"; body := JObj [(lit "prompt", JStr [])] |}
  = Spec.missing_prompt_only
  /\ api_calls
       (snd (serve (rt := integers_only) (sdk := openai_v4) (api := api_answers "ok")
               env_with_key
               {| method := lit "POST";
                  body := JObj [(lit "prompt", JStr [])] |}))
     = [].
Proof.
  apply (absent_or_empty_prompt_is_rejected (rt := integers_only) (sdk := openai_v4)
           (api := api_answers "ok") env_with_key
           [(lit "prompt", JStr [])]).
  right. reflexivity.
Defined.

(** Claim C2 as it is written fails: a prompt of three spaces is blank,
    yet the request reaches the completion API and is answered 200. *)
Lemma blank_prompt_is_not_rejected : ~ Spec.blank_prompt_is_rejected.
Proof.
  intros H.
  specialize (H integers_only openai_v4 (api_answers "ok") env_with_key
                [ (lit "prompt", JStr (lit "   "));
                  (lit "style", JStr (lit "concise"));
                  (lit "creativity", JInt 5) ]).
  assert (B : Spec.absent_or_blank
                (lookup (lit "prompt")
                   [ (lit "prompt", JStr (lit "   "));
                     (lit "style", JStr (lit "concise"));
                     (lit "creativity", JInt 5) ])).
  { right. exists (lit "   "). split; reflexivity. }
  specialize (H B). vm_compute in H. discriminate H.
Qed.

Lemma model_is_empty_string_witness :
  model (completion_request (JStr (lit "Write a poem"))
           (instruction_text (lit "creative") (lit "8")))
  = lit "".
Proof.
  apply (model_is_empty_string (rt := integers_only) (sdk := openai_v4)
           (api := api_answers "ok") env_with_key (post poem_body)
           {| apiKey := JStr (lit "sk-test") |}).
  vm_compute. left. reflexivity.
Defined.




(** Claim C7 as it is written fails: a style that is an object with a
    key [toString] of its own cannot be converted to a string, so the
    template literal throws and no completion request is submitted,
    although the method is POST and the prompt is truthy. *)
Lemma unconvertible_style_is_not_submitted :
  ~ Spec.every_valid_post_is_submitted.
Proof.
  intros H.
  destruct (H integers_only openai_v4 (api_answers "ok") env_with_key
              (post unconvertible_body) eq_refl eq_refl)
    as (client & params & instruction & C & _).
  vm_compute in C. discriminate C.
Qed.

Lemma one_call_with_instruction_and_prompt_witness :
  exists params,
    api_calls
      (snd (serve (rt := integers_only) (sdk := openai_v4)
              (api := api_answers "ok") env_with_key (post list_body)))
    = [({| apiKey := JStr (lit "sk-test") |}, params)]
    /\ messages params
       = [ {| role := lit "system";
              content :=
                JStr (lit "Enhance the following prompt using "
                        ++ lit "formal,brief"
                        ++ lit " style with creativity level "
                        ++ lit "8" ++ lit "/10." ++ nl
                        ++ lit "Apply prompt engineering best practices to make it more effective for AI interaction."
                        ++ nl
                        ++ lit "Return only the enhanced prompt without any additional explanations.") |};
           {| role := lit "user"; content := JStr (lit "Write a poem") |} ].
Proof.
  refine (proj1 (one_call_with_instruction_and_prompt (rt := integers_only)
                   (sdk := openai_v4) (api := api_answers "ok")
                   env_with_key (post list_body)
                   (client := {| apiKey := JStr (lit "sk-test") |})
                   (style := lit "formal,brief") (creativity := lit "8")
                   _ _ _ _ _)).
  - reflexivity.
  - reflexivity.
  - reflexivity.
  - reflexivity.
  - reflexivity.
Defined.

(** Claim C1 at a concrete request.  For
    [{ prompt: 'Write a poem', style: 'creative', creativity: 8 }] the
    handler sends the temperature 0.7, where the claim has 8/10; without
    a [creativity] it sends 0.7 again, where the claim has 0.5. *)
Theorem temperature_ignores_creativity :
  (map (fun call => temperature (snd call))
     (api_calls
        (snd (serve (rt := integers_only) (sdk := openai_v4) (api := api_answers "ok")
                env_with_key (post poem_body))))
   = [Finite (7 # 10)]
   /\ Spec.expected_temperature (JInt 8) = Some (Finite (inject_Z 8 / 10))
   /\ ~ number_eq (Finite (7 # 10)) (Finite (inject_Z 8 / 10)))
  /\ (map (fun call => temperature (snd call))
        (api_calls
           (snd (serve (rt := integers_only) (sdk := openai_v4) (api := api_answers "ok")
                   env_with_key
                   (post (JObj [(lit "prompt", JStr (lit "Write a poem"))])))))
      = [Finite (7 # 10)]
      /\ Spec.expected_temperature JUndefined = Some (Finite (5 # 10))
      /\ ~ number_eq (Finite (7 # 10)) (Finite (5 # 10))).
Proof.
  repeat split; try reflexivity; vm_compute; discriminate.
Qed.


(** A completion that resolves to [null] is a failure of the response
    extraction: the error goes to the console, the caller gets the
    generic body. *)
Example null_completion_is_a_failure :
  serve (rt := integers_only) (sdk := openai_v4) (api := api_resolves JNull)
    env_with_key (post poem_body)
  = (inr tt,
     [Create {| apiKey := JStr (lit "sk-test") |}
        (completion_request (JStr (lit "Write a poem"))
           (instruction_text (lit "creative") (lit "8")));
      ConsoleError
        [JStr (lit "Error enhancing prompt:");
         TypeError (lit "Cannot read properties of null (reading 'choices')")];
      Respond 500 (Some (error_body "Failed to enhance prompt"))]).
Proof. vm_compute. reflexivity. Qed.

(** Without a key the constructor of the package throws: no call is
    made, and the caller gets the generic body. *)
Example missing_key_is_a_failure :
  serve (rt := integers_only) (sdk := openai_v4) (api := api_answers "ok")
    env_without_key (post poem_body)
  = (inr tt,
     [ConsoleError [JStr (lit "Error enhancing prompt:"); missing_key];
      Respond 500 (Some (error_body "Failed to enhance prompt"))]).
Proof. vm_compute. reflexivity. Qed.

(** A rejected call is a failure after the call. *)
Example rejected_call_is_a_failure :
  serve (rt := integers_only) (sdk := openai_v4)
    (api := api_rejects upstream_error) env_with_key (post poem_body)
  = (inr tt,
     [Create {| apiKey := JStr (lit "sk-test") |}
        (completion_request (JStr (lit "Write a poem"))
           (instruction_text (lit "creative") (lit "8")));
      ConsoleError [JStr (lit "Error enhancing prompt:"); upstream_error];
      Respond 500 (Some (error_body "Failed to enhance prompt"))]).
Proof. vm_compute. reflexivity. Qed.

(** A completion without choices gives the empty text. *)
Example no_choices_is_empty_text :
  responses
    (snd (serve (rt := integers_only) (sdk := openai_v4)
            (api := api_resolves (JObj [(lit "choices", JArr [])]))
            env_with_key (post poem_body)))
  = [(200%Z, Some (JObj [(lit "enhancedPrompt", JStr (lit ""))]))].
Proof. vm_compute. reflexivity. Qed.

End EndpointFacts.

(* ===================================================================== *)
(** ** Properties of the form controller                                  *)
(* ===================================================================== *)

Module ClientFacts.
Import JS Effects Client JSFacts EffectsFacts.

Lemma hidden_after_add (l : list js_string) :
  existsb (fun t => js_string_eqb t (lit "hidden"))
    (classList_add (lit "hidden") l) = true.
Proof.
  unfold classList_add.
  destruct (existsb (fun t => js_string_eqb t (lit "hidden")) l) eqn:E.
  - exact E.
  - rewrite existsb_app, E. reflexivity.
Qed.

Lemma shown_after_remove (l : list js_string) :
  existsb (fun t => js_string_eqb t (lit "hidden"))
    (classList_remove (lit "hidden") l) = false.
Proof.
  unfold classList_remove. induction l as [| t l IH]; [reflexivity |].
  cbn [filter]. destruct (js_string_eqb t (lit "hidden")) eqn:E; cbn [negb].
  - exact IH.
  - cbn [existsb]. rewrite E, IH. reflexivity.
Qed.

Section Facts.
Context {rt : Runtime} {browser : Browser}.

Lemma show_busy_run (w : World) :
  run show_busy w
  = (inr tt,
     with_dom (set_enhanceBtn_disabled true)
       (with_dom (fun d =>
          set_loader_classList
            (classList_remove (lit "hidden") (loader_classList d)) d) w)).
Proof. unfold show_busy. autorewrite with run. reflexivity. Qed.

Lemma clear_busy_run (w : World) :
  run clear_busy w
  = (inr tt,
     with_dom (set_enhanceBtn_disabled false)
       (with_dom (fun d =>
          set_loader_classList
            (classList_add (lit "hidden") (loader_classList d)) d) w)).
Proof. unfold clear_busy. autorewrite with run. reflexivity. Qed.

Lemma show_busy_is_busy (w : World) :
  is_busy (dom (snd (run show_busy w))) = true.
Proof.
  rewrite show_busy_run. unfold is_busy. cbn.
  rewrite shown_after_remove. reflexivity.
Qed.

Lemma clear_busy_is_idle (w : World) :
  is_idle (dom (snd (run clear_busy w))) = true.
Proof.
  rewrite clear_busy_run. unfold is_idle. cbn.
  rewrite hidden_after_add. reflexivity.
Qed.

(** The [catch] block returns. *)
Lemma on_failure_run (err : value) (w : World) :
  run (on_failure err) w
  = (inr tt, with_dom (set_resultEl_textContent (lit "Network error")) w).
Proof. unfold on_failure, assign_textContent. autorewrite with run. reflexivity. Qed.

(** Whatever the guarded block does, the [try] statement returns with
    the page idle. *)
Lemma guarded_ends_idle (block : C unit) (w : World) :
  fst (run (try_finally (try_catch block on_failure) clear_busy) w) = inr tt
  /\ is_idle
       (dom (snd (run (try_finally (try_catch block on_failure) clear_busy)
                    w))) = true.
Proof.
  rewrite run_try_finally, run_try_catch.
  destruct (run block w) as [[err | []] w1].
  - rewrite on_failure_run.
    pose proof (clear_busy_is_idle
                  (with_dom (set_resultEl_textContent (lit "Network error")) w1)) as I.
    rewrite clear_busy_run in *. split; [reflexivity | exact I].
  - pose proof (clear_busy_is_idle w1) as I.
    rewrite clear_busy_run in *. split; [reflexivity | exact I].
Qed.

Lemma click_run (w : World) :
  click w =
  if negb (truthy (JStr (trim (promptEl_value (dom w)))))
  then (inr tt,
        {| dom := dom w;
           log := log w ++ [Alert (lit "Please enter a prompt.")] |})
  else run (try_finally
              (try_catch (exchange (trim (promptEl_value (dom w))))
                 on_failure)
              clear_busy)
         (snd (run show_busy w)).
Proof.
  unfold click, enhancePrompt. rewrite run_bind, run_get. cbv zeta.
  destruct (negb (truthy (JStr (trim (promptEl_value (dom w)))))).
  - unfold alert, emit. rewrite run_update. reflexivity.
  - rewrite run_bind, show_busy_run. reflexivity.
Qed.

(** The [try] block, path by path. *)
Lemma exchange_run (prompt : js_string) (w : World) :
  let init :=
    {| method := lit "POST";
       headers := [ (lit "Content-Type", lit "application/json") ];
       body := JSON_stringify
                 (JObj [ (lit "prompt", JStr prompt);
                         (lit "style", JStr (styleEl_value (dom w)));
                         (lit "creativity",
                          Number (creativityEl_value (dom w))) ]) |} in
  let sent :=
    {| dom := dom w;
       log := log w ++ [Fetch (lit "/api/enhancePrompt") init] |} in
  let shows (v : value) : (value + unit) * World :=
    match (if is_nullish v then inr [] else ToString v) with
    | inl error => (inl error, sent)
    | inr text => (inr tt, with_dom (set_resultEl_textContent text) sent)
    end in
  run (exchange prompt) w =
  match fetch_settles (lit "/api/enhancePrompt") init with
  | inl reason => (inl reason, sent)
  | inr res =>
      match json res with
      | inl reason => (inl reason, sent)
      | inr data =>
          if is_nullish data
          then (inl (TypeError
                       (lit "Cannot read properties of "
                          ++ nullish_name data ++ lit " (reading '"
                          ++ (if ok res then lit "enhancedPrompt"
                              else lit "error")
                          ++ lit "')")), sent)
          else if ok res
          then shows (js_or (Get data (lit "enhancedPrompt"))
                        (JStr (lit "No result")))
          else shows (js_or (Get data (lit "error"))
                        (JStr (lit "Failed to enhance prompt")))
      end
  end.
Proof.
  cbv zeta. unfold exchange, fetch, emit. autorewrite with run.
  destruct fetch_settles as [reason | res]; autorewrite with run;
    [reflexivity |].
  destruct (json res) as [reason | data]; autorewrite with run;
    [reflexivity |].
  unfold GetV, assign_textContent.
  destruct (ok res), (is_nullish data); autorewrite with run;
    try reflexivity;
    match goal with
    | |- context [if is_nullish ?v then _ else ToString ?v] =>
        destruct (if is_nullish v then inr [] else ToString v)
          as [error | text]
    end;
    autorewrite with run; reflexivity.
Qed.

(** Claim C9.  When the value of the textarea is empty after trimming
    white space, a click shows the alert and does nothing else: the
    page is unchanged and no request is sent. *)
Theorem blank_prompt_alerts_without_request (w : World) :
  trim (promptEl_value (dom w)) = [] ->
  click w
  = (inr tt,
     {| dom := dom w;
        log := log w ++ [Alert (lit "Please enter a prompt.")] |})
  /\ fetches (log (snd (click w))) = fetches (log w).
Proof.
  intros H. rewrite click_run, H. cbn [truthy negb snd log]. split.
  - reflexivity.
  - unfold fetches. rewrite flat_map_app. cbn. apply app_nil_r.
Qed.

(** Claim C10.  A click with a prompt that is not blank enters the busy
    state (loader shown, trigger disabled) and then runs the guarded
    exchange; however the exchange ends, with a success status, with
    another status, or with a failure of the transport or of the
    decoding, the function returns with the loader hidden and the
    trigger enabled. *)
Theorem busy_state_is_cleared (w : World) :
  trim (promptEl_value (dom w)) <> [] ->
  (exists busy : World,
      is_busy (dom busy) = true
      /\ click w
         = run (try_finally
                  (try_catch (exchange (trim (promptEl_value (dom w))))
                     on_failure)
                  clear_busy) busy)
  /\ fst (click w) = inr tt
  /\ is_idle (dom (snd (click w))) = true.
Proof.
  intros H. rewrite click_run.
  destruct (trim (promptEl_value (dom w))) as [| c s] eqn:E;
    [contradiction |].
  cbn [truthy negb]. split.
  - exists (snd (run show_busy w)). split.
    + apply show_busy_is_busy.
    + reflexivity.
  - apply guarded_ends_idle.
Qed.
End Facts.

(** *** The claims on concrete pages *)

Import Examples.

Lemma blank_prompt_alerts_without_request_witness :
  click (rt := integers_only) (browser := browser_with (inl network_down))
    (page "  ")
  = (inr tt,
     {| dom := dom (page "  ");
        log := [Alert (lit "Please enter a prompt.")] |}).
Proof.
  refine (proj1 (blank_prompt_alerts_without_request (rt := integers_only)
                   (browser := browser_with (inl network_down))
                   (page "  ") _)).
  reflexivity.
Defined.

Lemma busy_state_is_cleared_witness :
  is_idle
    (dom (snd (click (rt := integers_only)
                 (browser := browser_with (inl network_down))
                 (page "Write a poem")))) = true.
Proof.
  refine (proj2 (proj2 (busy_state_is_cleared (rt := integers_only)
                          (browser := browser_with (inl network_down))
                          (page "Write a poem") _))).
  vm_compute. discriminate.
Defined.

(** The three exits of the exchange, on the page of [index.html]. *)
Example exit_success :
  let w := snd (click (rt := integers_only)
                  (browser :=
                     browser_with
                       (inr {| ok := true;
                               json := inr (JObj [(lit "enhancedPrompt",
                                                   JStr (lit "A refined poem prompt..."))]) |}))
                  (page "Write a poem")) in
  resultEl_textContent (dom w) = lit "A refined poem prompt..."
  /\ is_idle (dom w) = true
  /\ List.length (fetches (log w)) = 1%nat.
Proof. vm_compute. auto. Qed.

Example exit_api_error :
  let w := snd (click (rt := integers_only)
                  (browser :=
                     browser_with
                       (inr {| ok := false;
                               json := inr (JObj [(lit "error",
                                                   JStr (lit "Missing prompt"))]) |}))
                  (page "Write a poem")) in
  resultEl_textContent (dom w) = lit "Missing prompt"
  /\ is_idle (dom w) = true.
Proof. vm_compute. auto. Qed.

Example exit_network_failure :
  let w := snd (click (rt := integers_only)
                  (browser := browser_with (inl network_down))
                  (page "Write a poem")) in
  resultEl_textContent (dom w) = lit "Network error"
  /\ is_idle (dom w) = true.
Proof. vm_compute. auto. Qed.

End ClientFacts.

(* ===================================================================== *)
(** ** More about the endpoint                                            *)
(* ===================================================================== *)

Module EndpointMore.
Import JS Effects Endpoint JSFacts EffectsFacts EndpointFacts.

Lemma first_content_defined (choices : value) :
  truthy (first_content choices) = true \/ first_content choices = JStr [].
Proof.
  unfold first_content, js_or.
  destruct (truthy (optional_get _ (lit "content"))) eqn:T; auto.
Qed.

Section More.
Context {rt : Runtime} {sdk : OpenAIConstructor} {api : CompletionAPI}.
Variable env : ProcessEnv.

(** Every invocation, with what it returns and what decided it. *)
Lemma serve_paths (req : Request) :
  (method req = lit "OPTIONS"
   /\ serve env req = (inr tt, [Respond 200 None]))
  \/ (method req <> lit "OPTIONS" /\ method req <> lit "POST"
      /\ serve env req
         = (inr tt, [Respond 405 (Some (error_body "Method not allowed"))]))
  \/ (method req = lit "POST" /\ truthy (field req "prompt") = false
      /\ serve env req
         = (inr tt, [Respond 400 (Some (error_body "Missing prompt"))]))
  \/ (method req = lit "POST" /\ truthy (field req "prompt") = true
      /\ exists error tr,
          run (enhance env req) [] = (inl error, tr)
          /\ serve env req
             = (inr tt,
                tr ++ [ConsoleError
                         [JStr (lit "Error enhancing prompt:"); error];
                       Respond 500
                         (Some (error_body "Failed to enhance prompt"))]))
  \/ (method req = lit "POST" /\ truthy (field req "prompt") = true
      /\ exists openai instruction completion,
          new_OpenAI (client_options env) = inr openai
          /\ enhancementInstruction (field req "style")
               (field req "creativity") = inr instruction
          /\ chat_completions_create openai
               (completion_request (field req "prompt") instruction)
             = inr completion
          /\ serve env req
             = (inr tt,
                [Create openai
                   (completion_request (field req "prompt") instruction);
                 Respond 200
                   (Some (JObj [(lit "enhancedPrompt",
                                 first_content
                                   (Get completion (lit "choices")))]))])).
Proof.
  destruct (js_string_eqb (method req) (lit "OPTIONS")) eqn:HO.
  { apply js_string_eqb_eq in HO. left. split; [exact HO |].
    apply serve_options. exact HO. }
  destruct (js_string_eqb (method req) (lit "POST")) eqn:HP.
  2:{ apply js_string_eqb_neq in HO, HP. right; left.
      repeat split; try assumption. apply serve_unsupported; assumption. }
  apply js_string_eqb_eq in HP. do 2 right.
  rewrite (serve_post env _ HP).
  destruct (run (enhance env req) []) as [[error | []] tr] eqn:R.
  { right; left. rewrite enhance_run in R. cbv zeta in R.
    destruct (truthy (field req "prompt")); [| discriminate R].
    repeat split; try assumption. exists error, tr.
    split; reflexivity. }
  rewrite enhance_run in R. cbv zeta in R.
  destruct (truthy (field req "prompt")) eqn:T.
  2:{ left. injection R as <-. auto. }
  do 2 right. repeat split; try assumption.
  destruct (new_OpenAI (client_options env)) as [e | openai];
    [discriminate R |].
  destruct enhancementInstruction as [e | instruction]; [discriminate R |].
  destruct chat_completions_create as [reason | completion] eqn:E;
    [discriminate R |].
  destruct (is_nullish completion); [discriminate R |].
  injection R as <-. exists openai, instruction, completion. auto.
Qed.

(** Property X1.
    Every invocation returns normally after exactly one response, whose
    status is 200, 400, 405 or 500. *)
Theorem responds_exactly_once (req : Request) :
  fst (serve env req) = inr tt
  /\ exists code payload,
      responses (snd (serve env req)) = [(code, payload)]
      /\ In code [200; 400; 405; 500]%Z.
Proof.
  destruct (serve_paths req)
    as [[_ E] | [(_ & _ & E) | [(_ & _ & E)
       | [(_ & _ & e & tr & R & E)
       | (_ & _ & o & i & c & _ & _ & _ & E)]]]];
    rewrite E; (split; [reflexivity |]); do 2 eexists.
  1-3, 5: split; [reflexivity | simpl; auto].
  destruct (enhance_throws env _ R) as (_ & N & _).
  cbn [snd]. unfold responses in *. rewrite flat_map_app, N.
  split; [reflexivity | simpl; auto].
Qed.

(** Property X2.
    The completion API is called at most once; the call is the first
    thing the invocation sends out, and its client is the one that
    [new OpenAI({ apiKey: process.env.OPENAI_API_KEY })] returned. *)
Theorem call_comes_first (req : Request) :
  api_calls (snd (serve env req)) = []
  \/ exists client params rest,
      new_OpenAI (client_options env) = inr client
      /\ snd (serve env req) = Create client params :: rest
      /\ api_calls rest = [].
Proof.
  destruct (serve_paths req)
    as [[_ E] | [(_ & _ & E) | [(_ & _ & E)
       | [(_ & _ & e & tr & R & E)
       | (_ & _ & o & i & c & N & _ & _ & E)]]]];
    rewrite E; try (left; reflexivity).
  - destruct (enhance_throws env _ R)
      as (_ & _ & [[_ ->] | [[_ ->] | (o & i & N & _ & -> & _)]]);
      try (left; reflexivity).
    right. do 3 eexists. split; [exact N |]. split; reflexivity.
  - right. do 3 eexists. split; [exact N |]. split; reflexivity.
Qed.

(** Property X3.
    The console receives an error exactly when the response is 500, and
    what it receives is the label of line 33 followed by the very error
    that the [try] block threw. *)
Theorem error_logged_iff_500 (req : Request) :
  (forall args,
      In (ConsoleError args) (snd (serve env req)) ->
      exists error tr,
        run (enhance env req) [] = (inl error, tr)
        /\ args = [JStr (lit "Error enhancing prompt:"); error])
  /\ ((exists args, In (ConsoleError args) (snd (serve env req)))
      <-> In 500%Z (map fst (responses (snd (serve env req))))).
Proof.
  destruct (serve_paths req)
    as [[_ E] | [(_ & _ & E) | [(_ & _ & E)
       | [(_ & _ & e & tr & R & E)
       | (_ & _ & o & i & c & _ & _ & _ & E)]]]];
    rewrite E; cbn [snd].
  1-3, 5:
    split;
    [ intros args H; simpl in H;
      repeat match goal with
             | H : _ \/ _ |- _ => destruct H as [H | H]
             | H : False |- _ => destruct H
             end; discriminate H
    | split;
      [ intros [args H]; simpl in H;
        repeat match goal with
               | H : _ \/ _ |- _ => destruct H as [H | H]
               | H : False |- _ => destruct H
               end; discriminate H
      | simpl; intros H;
        repeat match goal with
               | H : _ \/ _ |- _ => destruct H as [H | H]
               | H : False |- _ => destruct H
               end; discriminate H ] ].
  assert (NC : forall args, ~ In (ConsoleError args) tr).
  { destruct (enhance_throws env _ R)
      as (_ & _ & [[_ ->] | [[_ ->] | (o & i & _ & _ & -> & _)]]);
      intros args H; simpl in H;
      repeat match goal with
             | H : _ \/ _ |- _ => destruct H as [H | H]
             | H : False |- _ => destruct H
             end; discriminate H. }
  split; [| split].
  - intros args H. apply in_app_or in H. destruct H as [H | H].
    + elim (NC _ H).
    + simpl in H. destruct H as [H | [H | []]]; [| discriminate H].
      injection H as <-. exists e, tr. split; [exact R | reflexivity].
  - intros _. unfold responses. rewrite flat_map_app, map_app.
    apply in_or_app. right. simpl. auto.
  - intros _. eexists. apply in_or_app. right. left. reflexivity.
Qed.

(** Property X4.
    The completion API is called exactly for the POST requests whose
    prompt is truthy, for which the constructor returns a client and
    [style] and [creativity] convert to strings. *)
Theorem api_called_iff_valid_post (req : Request) :
  api_calls (snd (serve env req)) <> []
  <-> method req = lit "POST"
      /\ truthy (field req "prompt") = true
      /\ (exists client, new_OpenAI (client_options env) = inr client)
      /\ (exists s, ToString (field req "style") = inr s)
      /\ (exists c, ToString (field req "creativity") = inr c).
Proof.
  split.
  - intros H. destruct (api_calls (snd (serve env req))) as [| [c p] l] eqn:A;
      [elim H; reflexivity |].
    assert (I : In (Create c p) (snd (serve env req))).
    { assert (J : In (c, p) (api_calls (snd (serve env req))))
        by (rewrite A; left; reflexivity).
      unfold api_calls in J. apply in_flat_map in J.
      destruct J as [[c' p' | args | code payload] [J K]];
        simpl in K; try (destruct K; fail).
      destruct K as [K | []]. injection K as -> ->. exact J. }
    destruct (serve_call_is_request env _ _ _ I)
      as (HP & HT & HK & instruction & HI & _).
    destruct (instruction_built_inv _ _ HI) as (s & c' & HS & HC & _).
    eauto 10.
  - intros (HP & HT & [client HK] & [s HS] & [c HC]).
    rewrite (serve_calls_once env _ HP HT HK (instruction_built _ _ HS HC)).
    discriminate.
Qed.

(** Property X5.
    The body of every response: nothing for OPTIONS; one of the three
    literal error messages under [error] for 400, 405 and 500; and for
    the 200 of a POST, [enhancedPrompt] holding a truthy value or the
    empty string, never [undefined] or [null]. *)
Theorem response_bodies (req : Request) (code : Z) (payload : option value) :
  In (code, payload) (responses (snd (serve env req))) ->
  Bodies.response_shape req code payload.
Proof.
  unfold Bodies.response_shape.
  destruct (serve_paths req)
    as [[M E] | [(MO & MP & E) | [(M & T & E)
       | [(M & T & e & tr & R & E)
       | (M & T & o & i & c & _ & _ & _ & E)]]]];
    rewrite E; cbn [snd].
  4:{ destruct (enhance_throws env _ R) as (_ & N & _).
      unfold responses in *. rewrite flat_map_app, N. simpl.
      intros [H | []]. injection H as <- <-. auto 6. }
  all: simpl; intros H;
    repeat match goal with
           | H : _ \/ _ |- _ => destruct H as [H | H]
           | H : False |- _ => destruct H
           end;
    injection H as <- <-; auto 6.
  right; left. repeat split; try assumption. eexists. split; [reflexivity |].
  apply first_content_defined.
Qed.

(** Property X6.
    The handler has no default for [style] and [creativity]: when the
    body has neither and the client is constructed, the instruction that
    is sent reads "undefined" in both places. *)
Theorem absent_fields_read_undefined
    (props : list (js_string * value)) (client : OpenAI) :
  truthy (field {| method := lit "POST"; body := JObj props |} "prompt")
  = true ->
  lookup (lit "style") props = None ->
  lookup (lit "creativity") props = None ->
  new_OpenAI (client_options env) = inr client ->
  map (fun call => (fst call, messages (snd call)))
    (api_calls (snd (serve env {| method := lit "POST";
                                  body := JObj props |})))
  = [(client,
      [ {| role := lit "system";
           content :=
             JStr (lit "Enhance the following prompt using undefined style with creativity level undefined/10."
                     ++ nl
                     ++ lit "Apply prompt engineering best practices to make it more effective for AI interaction."
                     ++ nl
                     ++ lit "Return only the enhanced prompt without any additional explanations.") |};
        {| role := lit "user";
           content := field {| method := lit "POST"; body := JObj props |}
                        "prompt" |} ])].
Proof.
  intros HT HS HC HK.
  rewrite (serve_calls_once env {| method := lit "POST"; body := JObj props |}
             (instruction := instruction_text (lit "undefined")
                               (lit "undefined"))
             eq_refl HT HK).
  - reflexivity.
  - rewrite !field_of_object, HS, HC. reflexivity.
Qed.
End More.

Import Examples.

Lemma error_logged_iff_500_witness :
  In 500%Z
    (map fst
       (responses
          (snd (serve (rt := integers_only) (sdk := openai_v4)
                  (api := api_rejects upstream_error)
                  env_with_key (post poem_body))))).
Proof.
  apply (proj2 (error_logged_iff_500 (rt := integers_only)
                  (sdk := openai_v4) (api := api_rejects upstream_error)
                  env_with_key (post poem_body))).
  eexists. vm_compute. right. left. reflexivity.
Defined.

Lemma api_called_iff_valid_post_witness :
  api_calls
    (snd (serve (rt := integers_only) (sdk := openai_v4)
            (api := api_answers "ok") env_with_key (post blank_body)))
  <> [].
Proof.
  apply (api_called_iff_valid_post (rt := integers_only) (sdk := openai_v4)
           (api := api_answers "ok") env_with_key (post blank_body)).
  repeat split; try reflexivity; eexists; reflexivity.
Defined.

Lemma response_bodies_witness :
  Bodies.response_shape (post (JObj [])) 400
    (Some (error_body "Missing prompt")).
Proof.
  apply (response_bodies (rt := integers_only) (sdk := openai_v4)
           (api := api_answers "ok") env_with_key (post (JObj []))).
  vm_compute. left. reflexivity.
Defined.

Lemma absent_fields_read_undefined_witness :
  map (fun call => (fst call, messages (snd call)))
    (api_calls
       (snd (serve (rt := integers_only) (sdk := openai_v4)
               (api := api_answers "ok") env_with_key
               {| method := lit "POST";
                  body := JObj [(lit "prompt", JStr (lit "Write a poem"))] |})))
  = [({| apiKey := JStr (lit "sk-test") |},
      [ {| role := lit "system";
           content :=
             JStr (lit "Enhance the following prompt using undefined style with creativity level undefined/10."
                     ++ nl
                     ++ lit "Apply prompt engineering best practices to make it more effective for AI interaction."
                     ++ nl
                     ++ lit "Return only the enhanced prompt without any additional explanations.") |};
        {| role := lit "user"; content := JStr (lit "Write a poem") |} ])].
Proof.
  apply (absent_fields_read_undefined (rt := integers_only)
           (sdk := openai_v4) (api := api_answers "ok") env_with_key
           [(lit "prompt", JStr (lit "Write a poem"))]
           (client := {| apiKey := JStr (lit "sk-test") |}));
    reflexivity.
Defined.

End EndpointMore.

(* ===================================================================== *)
(** ** More about the form controller                                     *)
(* ===================================================================== *)

Module ClientMore.
Import JS Effects Client ClientRequest JSFacts EffectsFacts ClientFacts.

Lemma trim_start_head (s : js_string) (c : code_unit) (rest : js_string) :
  trim_start s = c :: rest -> is_white_space c = false.
Proof.
  induction s as [| d s IH]; cbn [trim_start]; [discriminate |].
  destruct (is_white_space d) eqn:E; [exact IH |].
  intros [= <- _]. exact E.
Qed.

Lemma trim_start_suffix (s : js_string) :
  exists dropped, s = dropped ++ trim_start s.
Proof.
  induction s as [| d s [dropped IH]]; cbn [trim_start].
  - exists []. reflexivity.
  - destruct (is_white_space d).
    + exists (d :: dropped). cbn. f_equal. exact IH.
    + exists []. reflexivity.
Qed.

(** A trimmed string neither starts nor ends with white space. *)
Lemma trim_ends (s : js_string) :
  (forall c rest, trim s = c :: rest -> is_white_space c = false)
  /\ (forall c, last_unit (trim s) = Some c -> is_white_space c = false).
Proof.
  unfold trim, trim_end, last_unit. split.
  - intros c rest H.
    destruct (trim_start_suffix (rev (trim_start s))) as [dropped D].
    apply (f_equal (@rev _)) in D.
    rewrite rev_involutive, rev_app_distr, H in D.
    cbn in D. apply (trim_start_head _ D).
  - intros c. rewrite rev_involutive.
    destruct (trim_start (rev (trim_start s))) as [| d r] eqn:E;
      [discriminate |].
    intros [= <-]. apply (trim_start_head _ E).
Qed.

Section More.
Context {rt : Runtime} {browser : Browser}.

(** The page after a click on a prompt that is not blank, path by path:
    the request is logged, one text is shown, the busy state is left. *)
Lemma click_paths (w : World) :
  trim (promptEl_value (dom w)) <> [] ->
  let d := dom w in
  let shows (text : js_string) : (value + unit) * World :=
    (inr tt,
     {| dom :=
          {| promptEl_value := promptEl_value d;
             styleEl_value := styleEl_value d;
             creativityEl_value := creativityEl_value d;
             enhanceBtn_disabled := false;
             resultEl_textContent := text;
             loader_classList :=
               classList_add (lit "hidden")
                 (classList_remove (lit "hidden") (loader_classList d)) |};
        log := log w ++ [Fetch (lit "/api/enhancePrompt") (form_init d)] |}) in
  let renders (v : value) : (value + unit) * World :=
    match ToString v with
    | inl _ => shows (lit "Network error")
    | inr text => shows text
    end in
  click w =
  match fetch_settles (lit "/api/enhancePrompt") (form_init d) with
  | inl _ => shows (lit "Network error")
  | inr res =>
      match json res with
      | inl _ => shows (lit "Network error")
      | inr data =>
          if is_nullish data then shows (lit "Network error")
          else if ok res
          then renders (js_or (Get data (lit "enhancedPrompt"))
                          (JStr (lit "No result")))
          else renders (js_or (Get data (lit "error"))
                          (JStr (lit "Failed to enhance prompt")))
      end
  end.
Proof.
  intros H. cbv zeta. rewrite click_run.
  destruct (trim (promptEl_value (dom w))) as [| c s] eqn:E;
    [contradiction |].
  cbn [truthy negb]. rewrite run_try_finally, run_try_catch, exchange_run.
  rewrite show_busy_run. cbv zeta. unfold form_init, form_payload.
  cbn [snd dom with_dom set_enhanceBtn_disabled set_loader_classList
         styleEl_value creativityEl_value promptEl_value log].
  rewrite E.
  destruct fetch_settles as [reason | res].
  { rewrite on_failure_run, clear_busy_run. reflexivity. }
  destruct (json res) as [reason | data].
  { rewrite on_failure_run, clear_busy_run. reflexivity. }
  destruct (is_nullish data) eqn:N.
  { rewrite on_failure_run, clear_busy_run. reflexivity. }
  assert (R : forall v fallback,
             is_nullish (js_or v (JStr (lit fallback))) = false).
  { intros v fallback. unfold js_or. destruct (truthy v) eqn:T.
    - apply truthy_not_nullish, T.
    - reflexivity. }
  destruct (ok res); rewrite R;
    match goal with
    | |- context [ToString ?v] => destruct (ToString v) as [error | text]
    end;
    rewrite ?on_failure_run, clear_busy_run; reflexivity.
Qed.

(** Property X7.
    A click on a prompt that is not blank sends exactly one request: a
    POST to [/api/enhancePrompt] with the JSON content type, whose body
    is the serialised object of the trimmed prompt, the style and the
    creativity as a number.  The prompt in it neither starts nor ends
    with white space, and no alert is shown. *)
Theorem click_sends_one_request (w : World) :
  trim (promptEl_value (dom w)) <> [] ->
  log (snd (click w))
  = log w ++ [Fetch (lit "/api/enhancePrompt") (form_init (dom w))]
  /\ Get (form_payload (dom w)) (lit "prompt")
     = JStr (trim (promptEl_value (dom w)))
  /\ (forall c rest,
         trim (promptEl_value (dom w)) = c :: rest ->
         is_white_space c = false)
  /\ (forall c,
         last_unit (trim (promptEl_value (dom w))) = Some c ->
         is_white_space c = false).
Proof.
  intros H. split; [| split; [reflexivity | apply trim_ends]].
  rewrite (click_paths _ H). cbv zeta.
  destruct fetch_settles as [reason | res]; [reflexivity |].
  destruct (json res) as [reason | data]; [reflexivity |].
  destruct (is_nullish data), (ok res); try reflexivity;
    match goal with
    | |- context [ToString ?v] => destruct (ToString v) as [error | text]
    end; reflexivity.
Qed.

(** Property X8.
    What the form sends passes the validation of the endpoint: posted as
    it is, the object of a prompt that is not blank is never answered
    400 or 405, whatever the key and the completion API; and once the
    client is constructed and the creativity is converted, the
    completion API is called once, with the trimmed prompt as the user
    message and the style as it was chosen in the instruction. *)
Theorem form_payload_passes_validation
    (w : World) (sdk : Endpoint.OpenAIConstructor)
    (api : Endpoint.CompletionAPI) (env : Endpoint.ProcessEnv) :
  trim (promptEl_value (dom w)) <> [] ->
  let trace :=
    snd (Endpoint.serve env
           {| Endpoint.method := lit "POST";
              Endpoint.body := form_payload (dom w) |}) in
  (exists code payload,
      Endpoint.responses trace = [(code, payload)]
      /\ (code = 200%Z \/ code = 500%Z))
  /\ forall client creativity,
       Endpoint.new_OpenAI (Endpoint.client_options env) = inr client ->
       ToString (Number (creativityEl_value (dom w))) = inr creativity ->
       Endpoint.api_calls trace
       = [(client,
           Endpoint.completion_request
             (JStr (trim (promptEl_value (dom w))))
             (Endpoint.instruction_text (styleEl_value (dom w))
                creativity))].
Proof.
  intros H. cbv zeta.
  set (req := {| Endpoint.method := lit "POST";
                 Endpoint.body := form_payload (dom w) |}).
  assert (T : truthy (Endpoint.field req "prompt") = true).
  { change (Endpoint.field req "prompt")
      with (JStr (trim (promptEl_value (dom w)))).
    destruct (trim (promptEl_value (dom w))); [contradiction | reflexivity]. }
  split.
  - destruct (EndpointMore.serve_paths env req)
      as [[M E] | [(MO & MP & E) | [(M & T' & E)
         | [(M & _ & e & tr & R & E)
         | (M & _ & o & i & c & _ & _ & _ & E)]]]].
    + discriminate M.
    + elim MP. reflexivity.
    + congruence.
    + rewrite E. destruct (EndpointFacts.enhance_throws env _ R)
        as (_ & N & _).
      cbn [snd]. unfold Endpoint.responses in *. rewrite flat_map_app, N.
      do 2 eexists. split; [reflexivity | auto].
    + rewrite E. do 2 eexists. split; [reflexivity | auto].
  - intros client creativity HK HC.
    apply (EndpointFacts.serve_calls_once env req eq_refl T HK).
    apply EndpointFacts.instruction_built; [reflexivity | exact HC].
Qed.

(** Property X9.
    After a response with a success status and a JSON body that is not
    [null], the result shows the string of [enhancedPrompt] when it is
    truthy, "Network error" when it is truthy but has no string (its
    conversion throws), and "No result" when it is absent, empty or
    otherwise falsy. *)
Theorem success_shows_enhanced_prompt
    (w : World) (res : Response) (data : value) :
  trim (promptEl_value (dom w)) <> [] ->
  fetch_settles (lit "/api/enhancePrompt") (form_init (dom w)) = inr res ->
  ok res = true ->
  json res = inr data ->
  is_nullish data = false ->
  let shown := resultEl_textContent (dom (snd (click w))) in
  let enhanced := Get data (lit "enhancedPrompt") in
  (truthy enhanced = true ->
   forall text, ToString enhanced = inr text -> shown = text)
  /\ (truthy enhanced = true ->
      forall error, ToString enhanced = inl error ->
      shown = lit "Network error")
  /\ (truthy enhanced = false -> shown = lit "No result").
Proof.
  intros H F O J N. cbv zeta. rewrite (click_paths _ H). cbv zeta.
  rewrite F, J, N, O. unfold js_or.
  split; [| split]; intros T; rewrite T; try reflexivity;
    intros x E; rewrite E; reflexivity.
Qed.

(** Property X10.
    After a response with another status and a JSON body that is not
    [null], the result shows the string of [error] when it is truthy,
    "Network error" when it is truthy but has no string (its conversion
    throws), and "Failed to enhance prompt" when it is absent, empty or
    otherwise falsy. *)
Theorem failure_shows_error
    (w : World) (res : Response) (data : value) :
  trim (promptEl_value (dom w)) <> [] ->
  fetch_settles (lit "/api/enhancePrompt") (form_init (dom w)) = inr res ->
  ok res = false ->
  json res = inr data ->
  is_nullish data = false ->
  let shown := resultEl_textContent (dom (snd (click w))) in
  let error := Get data (lit "error") in
  (truthy error = true ->
   forall text, ToString error = inr text -> shown = text)
  /\ (truthy error = true ->
      forall thrown, ToString error = inl thrown ->
      shown = lit "Network error")
  /\ (truthy error = false -> shown = lit "Failed to enhance prompt").
Proof.
  intros H F O J N. cbv zeta. rewrite (click_paths _ H). cbv zeta.
  rewrite F, J, N, O. unfold js_or.
  split; [| split]; intros T; rewrite T; try reflexivity;
    intros x E; rewrite E; reflexivity.
Qed.

(** Property X11.
    "Network error" is shown not only when the request fails, but also
    when the body of the response is not JSON, and when it is the JSON
    [null], whatever the status. *)
Theorem network_error_shown (w : World) :
  trim (promptEl_value (dom w)) <> [] ->
  (exists reason,
      fetch_settles (lit "/api/enhancePrompt") (form_init (dom w))
      = inl reason)
  \/ (exists res,
         fetch_settles (lit "/api/enhancePrompt") (form_init (dom w))
         = inr res
         /\ ((exists reason, json res = inl reason)
             \/ exists data, json res = inr data
                             /\ is_nullish data = true)) ->
  resultEl_textContent (dom (snd (click w))) = lit "Network error".
Proof.
  intros H C. rewrite (click_paths _ H). cbv zeta.
  destruct C as [[reason ->] | [res [-> [[reason ->] | [data [-> ->]]]]]];
    reflexivity.
Qed.

(** Property X12.
    A click never changes what the user entered: the prompt, the style
    and the creativity are the same after it, on every path. *)
Theorem click_keeps_inputs (w : World) :
  promptEl_value (dom (snd (click w))) = promptEl_value (dom w)
  /\ styleEl_value (dom (snd (click w))) = styleEl_value (dom w)
  /\ creativityEl_value (dom (snd (click w))) = creativityEl_value (dom w).
Proof.
  destruct (trim (promptEl_value (dom w))) as [| c s] eqn:E.
  - rewrite click_run, E. cbn. auto.
  - assert (H : trim (promptEl_value (dom w)) <> []) by (rewrite E; discriminate).
    rewrite (click_paths _ H). cbv zeta.
    destruct fetch_settles as [reason | res]; [cbn; auto |].
    destruct (json res) as [reason | data]; [cbn; auto |].
    destruct (is_nullish data), (ok res); try (cbn; auto; fail);
      match goal with
      | |- context [ToString ?v] => destruct (ToString v) as [error | text]
      end; cbn; auto.
Qed.
End More.

Import Examples Scenarios.

Lemma click_sends_one_request_witness :
  log (snd (click (rt := integers_only)
              (browser := browser_with (answers_ok "A refined poem prompt..."))
              (page "  Write a poem ")))
  = [Fetch (lit "/api/enhancePrompt")
       {| method := lit "POST";
          headers := [ (lit "Content-Type", lit "application/json") ];
          body := lit "{}" |}].
Proof.
  refine (proj1 (click_sends_one_request (rt := integers_only)
                   (browser := browser_with
                                 (answers_ok "A refined poem prompt..."))
                   (page "  Write a poem ") _)).
  vm_compute. discriminate.
Defined.

Lemma form_payload_passes_validation_witness :
  Endpoint.api_calls
    (snd (Endpoint.serve (rt := integers_only) (sdk := openai_v4)
            (api := api_answers "ok") env_with_key
            {| Endpoint.method := lit "POST";
               Endpoint.body :=
                 form_payload (browser := browser_with (inl network_down))
                   (dom (page "  Write a poem ")) |}))
  = [({| Endpoint.apiKey := JStr (lit "sk-test") |},
      Endpoint.completion_request (JStr (lit "Write a poem"))
        (Endpoint.instruction_text (lit "concise") (lit "5")))].
Proof.
  refine (proj2 (form_payload_passes_validation (rt := integers_only)
                   (browser := browser_with (inl network_down))
                   (page "  Write a poem ") openai_v4 (api_answers "ok")
                   env_with_key _)
            {| Endpoint.apiKey := JStr (lit "sk-test") |} (lit "5") _ _).
  - vm_compute. discriminate.
  - reflexivity.
  - reflexivity.
Defined.

Lemma success_shows_enhanced_prompt_witness :
  resultEl_textContent
    (dom (snd (click (rt := integers_only)
                 (browser := browser_with
                               (answers_ok "A refined poem prompt..."))
                 (page "Write a poem"))))
  = lit "A refined poem prompt...".
Proof.
  refine (proj1 (success_shows_enhanced_prompt (rt := integers_only)
                   (browser := browser_with
                                 (answers_ok "A refined poem prompt..."))
                   (page "Write a poem")
                   (res := {| ok := true;
                              json := inr (JObj [(lit "enhancedPrompt",
                                                  JStr (lit "A refined poem prompt..."))]) |})
                   (data := JObj [(lit "enhancedPrompt",
                                   JStr (lit "A refined poem prompt..."))])
                   _ _ _ _ _) _ (lit "A refined poem prompt...") _).
  - vm_compute. discriminate.
  - reflexivity.
  - reflexivity.
  - reflexivity.
  - reflexivity.
  - reflexivity.
  - reflexivity.
Defined.

Lemma failure_shows_error_witness :
  resultEl_textContent
    (dom (snd (click (rt := integers_only)
                 (browser := browser_with
                               (inr {| ok := false;
                                       json := inr (JObj [(lit "error",
                                                           JObj [(lit "toString", JNull)])]) |}))
                 (page "Write a poem"))))
  = lit "Network error".
Proof.
  refine (proj1 (proj2
            (failure_shows_error (rt := integers_only)
               (browser := browser_with
                             (inr {| ok := false;
                                     json := inr (JObj [(lit "error",
                                                         JObj [(lit "toString", JNull)])]) |}))
               (page "Write a poem")
               (res := {| ok := false;
                          json := inr (JObj [(lit "error",
                                              JObj [(lit "toString", JNull)])]) |})
               (data := JObj [(lit "error", JObj [(lit "toString", JNull)])])
               _ _ _ _ _)) _ not_primitive _).
  - vm_compute. discriminate.
  - reflexivity.
  - reflexivity.
  - reflexivity.
  - reflexivity.
  - reflexivity.
  - reflexivity.
Defined.

Lemma network_error_shown_witness :
  resultEl_textContent
    (dom (snd (click (rt := integers_only)
                 (browser := browser_with
                               (inr {| ok := true; json := inr JNull |}))
                 (page "Write a poem"))))
  = lit "Network error".
Proof.
  apply (network_error_shown (rt := integers_only)
           (browser := browser_with (inr {| ok := true; json := inr JNull |}))
           (page "Write a poem")).
  - vm_compute. discriminate.
  - right. eexists. split; [reflexivity |]. right. eexists.
    split; reflexivity.
Defined.

End ClientMore.

(* ===================================================================== *)
(** ** The copy button                                                    *)
(* ===================================================================== *)

Module CopyFacts.
Import JS Effects CopyButton JSFacts EffectsFacts.

(** [textContent || ''], converted for [writeText], is the text. *)
Lemma shown_or_empty {rt : Runtime} (shown : js_string) :
  ToString (js_or (JStr shown) (JStr (lit ""))) = inr shown.
Proof. destruct shown; reflexivity. Qed.

Section Facts.
Context {rt : Runtime}.

(** The listener, path by path. *)
Lemma on_copy_run {clipboard : Clipboard} (w : World) :
  let shown := Client.resultEl_textContent (Client.dom (page w)) in
  run on_copy w =
  match writeText_settles shown with
  | inr _ =>
      (inr tt,
       {| page := page w;
          copyBtn_textContent := lit "Copied!";
          timers := timers w ++ [{| callback := RestoreLabel;
                                    delay := 1500 |}];
          written := written w ++ [shown] |})
  | inl _ =>
      (inr tt,
       {| page := page w;
          copyBtn_textContent := lit "Failed";
          timers := timers w;
          written := written w ++ [shown] |})
  end.
Proof.
  cbv zeta. unfold on_copy, writeText, setTimeout.
  rewrite run_try_catch, run_bind, run_get. cbv zeta.
  rewrite shown_or_empty. unfold run. cbn -[lit].
  destruct writeText_settles as [reason | v]; reflexivity.
Qed.

Lemma fire_next_run (w : World) :
  run fire_next w =
  match timers w with
  | [] => (inr tt, w)
  | {| callback := RestoreLabel |} :: rest =>
      (inr tt,
       {| page := page w;
          copyBtn_textContent := lit "Copy";
          timers := rest;
          written := written w |})
  end.
Proof.
  unfold fire_next. rewrite run_bind, run_get.
  destruct (timers w) as [| [[] ms] rest] eqn:E.
  - apply run_ret.
  - unfold run, invoke, update, drop_timer, set_copyBtn_textContent.
    cbn. rewrite E. reflexivity.
Qed.

(** The listener of the trigger changes the page as [enhancePrompt]
    does, and nothing else. *)
Lemma on_enhance_run {browser : Client.Browser} (w : World) :
  run on_enhance w
  = (fst (Client.click (page w)), with_page (snd (Client.click (page w))) w).
Proof.
  unfold on_enhance. rewrite run_bind, run_get.
  destruct (Client.click (page w)) as [[e | []] p]; reflexivity.
Qed.

(** Property X13.
    When the clipboard accepts the text, a click on the copy button
    hands it exactly the text that the result shows (the empty string
    for an empty result), sets the label to "Copied!" and sets one timer
    of 1500 ms; when that timer fires on a script with no older timer,
    the label is "Copy" again and no timer is left. *)
Theorem copy_success {clipboard : Clipboard} (w : World) (v : value) :
  writeText_settles (Client.resultEl_textContent (Client.dom (page w)))
  = inr v ->
  let w1 := snd (run on_copy w) in
  fst (run on_copy w) = inr tt
  /\ written w1
     = written w ++ [Client.resultEl_textContent (Client.dom (page w))]
  /\ copyBtn_textContent w1 = lit "Copied!"
  /\ timers w1
     = timers w ++ [{| callback := RestoreLabel; delay := 1500 |}]
  /\ (timers w = [] ->
      copyBtn_textContent (snd (run fire_next w1)) = lit "Copy"
      /\ timers (snd (run fire_next w1)) = []).
Proof.
  intros H. cbv zeta. rewrite on_copy_run. cbv zeta. rewrite H.
  cbn [fst snd written copyBtn_textContent timers].
  do 4 (split; [reflexivity |]).
  intros T. rewrite fire_next_run. cbn [timers]. rewrite T. cbn. auto.
Qed.

(** Property X14.
    When the clipboard refuses the text, the click still returns
    normally; the label is "Failed" and no timer is set, so nothing the
    click did will change the label again. *)
Theorem copy_failure {clipboard : Clipboard} (w : World) (reason : value) :
  writeText_settles (Client.resultEl_textContent (Client.dom (page w)))
  = inl reason ->
  run on_copy w
  = (inr tt,
     {| page := page w;
        copyBtn_textContent := lit "Failed";
        timers := timers w;
        written :=
          written w ++ [Client.resultEl_textContent (Client.dom (page w))]
     |}).
Proof.
  intros H. rewrite on_copy_run. cbv zeta. rewrite H. reflexivity.
Qed.

(** Property X15.
    The timer of a successful copy is not cancelled by a later click: if
    a second click fails before it fires, the label "Failed" is replaced
    by "Copy" when it does. *)
Theorem stale_timer_replaces_failed
    (accepting refusing : Clipboard) (w : World) (v reason : value) :
  timers w = [] ->
  @writeText_settles accepting
    (Client.resultEl_textContent (Client.dom (page w))) = inr v ->
  @writeText_settles refusing
    (Client.resultEl_textContent (Client.dom (page w))) = inl reason ->
  let w1 := snd (run (on_copy (clipboard := accepting)) w) in
  let w2 := snd (run (on_copy (clipboard := refusing)) w1) in
  let w3 := snd (run fire_next w2) in
  copyBtn_textContent w2 = lit "Failed"
  /\ copyBtn_textContent w3 = lit "Copy"
  /\ timers w3 = [].
Proof.
  intros T A R. cbv zeta.
  rewrite (on_copy_run (clipboard := accepting)). cbv zeta. rewrite A.
  rewrite (on_copy_run (clipboard := refusing)). cbv zeta.
  cbn [snd page]. rewrite R. cbn [snd]. split; [reflexivity |].
  rewrite fire_next_run. cbn [timers]. rewrite T. cbn. auto.
Qed.

(** Property X16.
    Neither a click on the copy button nor a timer touches the page of
    the form, and neither throws. *)
Theorem copy_leaves_page {clipboard : Clipboard} (w : World) :
  (fst (run on_copy w) = inr tt /\ page (snd (run on_copy w)) = page w)
  /\ (fst (run fire_next w) = inr tt
      /\ page (snd (run fire_next w)) = page w).
Proof.
  split.
  - rewrite on_copy_run. cbv zeta. destruct writeText_settles; auto.
  - rewrite fire_next_run. destruct (timers w) as [| [[] ms] rest]; auto.
Qed.

(** Property X17.
    An enhancement that succeeds and a copy that follows it put on the
    clipboard the text that the endpoint returned under
    [enhancedPrompt]. *)
Theorem enhance_then_copy
    {browser : Client.Browser} {clipboard : Clipboard}
    (w : World) (res : Client.Response) (data : value) (text : js_string)
    (v : value) :
  trim (Client.promptEl_value (Client.dom (page w))) <> [] ->
  Client.fetch_settles (lit "/api/enhancePrompt")
    (ClientRequest.form_init (Client.dom (page w))) = inr res ->
  Client.ok res = true ->
  Client.json res = inr data ->
  Get data (lit "enhancedPrompt") = JStr text ->
  text <> [] ->
  writeText_settles text = inr v ->
  let w' := snd (run (on_enhance ;; on_copy) w) in
  written w' = written w ++ [text]
  /\ copyBtn_textContent w' = lit "Copied!".
Proof.
  intros H F O J G N A. cbv zeta.
  assert (ND : is_nullish data = false).
  { destruct data; try reflexivity; discriminate G. }
  rewrite run_bind, on_enhance_run, (ClientMore.click_paths _ H).
  cbv zeta. rewrite F, J, ND, O, G.
  assert (S : ToString (js_or (JStr text) (JStr (lit "No result")))
              = inr text).
  { destruct text; [contradiction | reflexivity]. }
  rewrite S. cbn [fst snd]. rewrite on_copy_run. cbv zeta.
  cbn [page with_page Client.dom Client.resultEl_textContent].
  rewrite A. split; reflexivity.
Qed.
End Facts.

Import Examples Scenarios.

Lemma copy_success_witness :
  written (snd (run (on_copy (rt := integers_only)
                       (clipboard := clipboard_accepts))
                  (script "A refined poem prompt...")))
  = [lit "A refined poem prompt..."].
Proof.
  refine (proj1 (proj2 (copy_success (rt := integers_only)
                          (clipboard := clipboard_accepts)
                          (script "A refined poem prompt...")
                          (v := JUndefined) _))).
  reflexivity.
Defined.

Lemma copy_failure_witness :
  copyBtn_textContent
    (snd (run (on_copy (rt := integers_only)
                 (clipboard := clipboard_refuses))
            (script "A refined poem prompt...")))
  = lit "Failed".
Proof.
  rewrite (copy_failure (rt := integers_only)
             (clipboard := clipboard_refuses)
             (script "A refined poem prompt...") (reason := not_allowed)).
  - reflexivity.
  - reflexivity.
Defined.

Lemma stale_timer_replaces_failed_witness :
  copyBtn_textContent
    (snd (run fire_next
            (snd (run (on_copy (rt := integers_only)
                         (clipboard := clipboard_refuses))
                    (snd (run (on_copy (rt := integers_only)
                                 (clipboard := clipboard_accepts))
                            (script "A refined poem prompt...")))))))
  = lit "Copy".
Proof.
  refine (proj1 (proj2 (stale_timer_replaces_failed (rt := integers_only)
                          clipboard_accepts clipboard_refuses
                          (script "A refined poem prompt...")
                          (v := JUndefined) (reason := not_allowed)
                          _ _ _))); reflexivity.
Defined.

Lemma enhance_then_copy_witness :
  written
    (snd (run (on_enhance (rt := integers_only)
                 (browser := browser_with
                               (answers_ok "A refined poem prompt..."))
               ;; on_copy (rt := integers_only)
                    (clipboard := clipboard_accepts))
            (script "")))
  = [lit "A refined poem prompt..."].
Proof.
  refine (proj1 (enhance_then_copy (rt := integers_only)
                   (browser := browser_with
                                 (answers_ok "A refined poem prompt..."))
                   (clipboard := clipboard_accepts)
                   (script "")
                   (res := {| Client.ok := true;
                              Client.json :=
                                inr (JObj [(lit "enhancedPrompt",
                                            JStr (lit "A refined poem prompt..."))]) |})
                   (data := JObj [(lit "enhancedPrompt",
                                   JStr (lit "A refined poem prompt..."))])
                   (text := lit "A refined poem prompt...")
                   (v := JUndefined) _ _ _ _ _ _ _)).
  - vm_compute. discriminate.
  - reflexivity.
  - reflexivity.
  - reflexivity.
  - reflexivity.
  - vm_compute. discriminate.
  - reflexivity.
Defined.

End CopyFacts.

(* ===================================================================== *)
(** ** The handler of the listing, and the handler of the file            *)
(* ===================================================================== *)

Module ListingFacts.
Import JS Effects JSFacts EffectsFacts.

(** [(creativity || 5) / 10] is what the specification asks of the
    temperature, wherever it asks anything. *)
Lemma listed_temperature_expected
    {cv : Listing.Conversions} (creativity : value) (t : number) :
  Spec.expected_temperature creativity = Some t ->
  number_eq (Listing.listed_temperature creativity) t.
Proof.
  unfold Spec.expected_temperature, Listing.listed_temperature, js_or.
  destruct creativity as [| | [|] | [q | | |] | [| c s] | l | o];
    cbn [truthy]; try discriminate;
    try (intros [= <-]; vm_compute; reflexivity).
  destruct (negb (Qeq_bool q 0)); intros [= <-].
  - cbn. apply Qeq_refl.
  - vm_compute. reflexivity.
Qed.

Section Facts.
Context {rt : Runtime} {cv : Listing.Conversions}.
Context {sdk : Endpoint.OpenAIConstructor}.
Variable env : Endpoint.ProcessEnv.

(** The handler of the listing, path by path. *)
Lemma listed_serve_run {api : Listing.CompletionAPI} (req : Endpoint.Request) :
  let prompt := Endpoint.field req "prompt" in
  let failed (calls : Listing.Trace) (error : value)
    : (value + unit) * Listing.Trace :=
    (inr tt,
     calls
       ++ [Listing.ConsoleError [JStr (lit "Error enhancing prompt:"); error];
           Listing.Respond 500
             (Some (Endpoint.error_body "Failed to enhance prompt"))]) in
  Listing.serve env req =
  if js_string_eqb (Endpoint.method req) (lit "OPTIONS")
  then (inr tt, [Listing.Respond 200 None])
  else if negb (js_string_eqb (Endpoint.method req) (lit "POST"))
  then (inr tt,
        [Listing.Respond 405
           (Some (Endpoint.error_body "Method not allowed"))])
  else if truthy prompt
  then match Endpoint.new_OpenAI (Endpoint.client_options env) with
       | inl error => failed [] error
       | inr openai =>
           match Endpoint.enhancementInstruction
                   (Endpoint.field req "style")
                   (Endpoint.field req "creativity") with
           | inl error => failed [] error
           | inr instruction =>
               let params :=
                 Listing.completion_request prompt instruction
                (Endpoint.field req "creativity") in
               match Listing.chat_completions_create openai params with
               | inl reason => failed [Listing.Create openai params] reason
               | inr completion =>
                   if is_nullish completion
                   then failed [Listing.Create openai params]
                          (TypeError (lit "Cannot read properties of "
                                        ++ nullish_name completion
                                        ++ lit " (reading '"
                                        ++ lit "choices" ++ lit "')"))
                   else (inr tt,
                         [Listing.Create openai params;
                          Listing.Respond 200
                            (Some (JObj [(lit "enhancedPrompt",
                                          Endpoint.first_content
                                            (Get completion
                                               (lit "choices")))]))])
               end
           end
       end
  else (inr tt,
        [Listing.Respond 400 (Some (Endpoint.error_body "Missing prompt"))]).
Proof.
  cbv zeta. unfold Listing.serve, Listing.handler.
  destruct (js_string_eqb (Endpoint.method req) (lit "OPTIONS"));
    [reflexivity |].
  destruct (js_string_eqb (Endpoint.method req) (lit "POST"));
    cbn [negb]; [| reflexivity].
  rewrite run_try_catch.
  unfold Listing.enhance, Endpoint.field, destructure.
  rewrite or_object_not_nullish. cbv zeta. autorewrite with run.
  destruct (truthy (Get (js_or (Endpoint.body req) (JObj [])) (lit "prompt")));
    cbn [negb]; [| reflexivity].
  destruct (Endpoint.new_OpenAI (Endpoint.client_options env))
    as [error | openai]; autorewrite with run; [reflexivity |].
  destruct Endpoint.enhancementInstruction as [error | instruction];
    autorewrite with run; [reflexivity |].
  unfold Listing.create, Listing.emit, GetV. autorewrite with run.
  destruct Listing.chat_completions_create as [reason | completion];
    autorewrite with run; [reflexivity |].
  destruct (is_nullish completion); autorewrite with run; reflexivity.
Qed.

(** The handler of the file, in the same form. *)
Lemma serve_run {api : Endpoint.CompletionAPI} (req : Endpoint.Request) :
  let prompt := Endpoint.field req "prompt" in
  let failed (calls : Endpoint.Trace) (error : value)
    : (value + unit) * Endpoint.Trace :=
    (inr tt,
     calls
       ++ [Endpoint.ConsoleError [JStr (lit "Error enhancing prompt:"); error];
           Endpoint.Respond 500
             (Some (Endpoint.error_body "Failed to enhance prompt"))]) in
  Endpoint.serve env req =
  if js_string_eqb (Endpoint.method req) (lit "OPTIONS")
  then (inr tt, [Endpoint.Respond 200 None])
  else if negb (js_string_eqb (Endpoint.method req) (lit "POST"))
  then (inr tt,
        [Endpoint.Respond 405
           (Some (Endpoint.error_body "Method not allowed"))])
  else if truthy prompt
  then match Endpoint.new_OpenAI (Endpoint.client_options env) with
       | inl error => failed [] error
       | inr openai =>
           match Endpoint.enhancementInstruction
                   (Endpoint.field req "style")
                   (Endpoint.field req "creativity") with
           | inl error => failed [] error
           | inr instruction =>
               let params :=
                 Endpoint.completion_request prompt instruction in
               match Endpoint.chat_completions_create openai params with
               | inl reason => failed [Endpoint.Create openai params] reason
               | inr completion =>
                   if is_nullish completion
                   then failed [Endpoint.Create openai params]
                          (TypeError (lit "Cannot read properties of "
                                        ++ nullish_name completion
                                        ++ lit " (reading '"
                                        ++ lit "choices" ++ lit "')"))
                   else (inr tt,
                         [Endpoint.Create openai params;
                          Endpoint.Respond 200
                            (Some (JObj [(lit "enhancedPrompt",
                                          Endpoint.first_content
                                            (Get completion
                                               (lit "choices")))]))])
               end
           end
       end
  else (inr tt,
        [Endpoint.Respond 400 (Some (Endpoint.error_body "Missing prompt"))]).
Proof.
  cbv zeta.
  destruct (js_string_eqb (Endpoint.method req) (lit "OPTIONS")) eqn:HO.
  { apply js_string_eqb_eq in HO. apply EndpointFacts.serve_options, HO. }
  destruct (js_string_eqb (Endpoint.method req) (lit "POST")) eqn:HP;
    cbn [negb].
  2:{ apply js_string_eqb_neq in HO, HP.
      apply EndpointFacts.serve_unsupported; assumption. }
  apply js_string_eqb_eq in HP.
  rewrite (EndpointFacts.serve_post env _ HP), EndpointFacts.enhance_run.
  cbv zeta. destruct (truthy (Endpoint.field req "prompt")); [| reflexivity].
  destruct (Endpoint.new_OpenAI (Endpoint.client_options env))
    as [error | openai]; [reflexivity |].
  destruct Endpoint.enhancementInstruction as [error | instruction];
    [reflexivity |].
  destruct Endpoint.chat_completions_create as [reason | completion];
    [reflexivity |].
  destruct (is_nullish completion); reflexivity.
Qed.

(** Property X18.
    In the listing, every call of the completion API names the model
    [gpt-3.5-turbo], allows 500 tokens, and has the temperature
    [(creativity || 5) / 10]: a tenth of a truthy numeric creativity,
    and a half when the creativity is absent, zero or otherwise
    falsy. *)
Theorem listed_call_follows_creativity
    {api : Listing.CompletionAPI} (req : Endpoint.Request)
    (client : Endpoint.OpenAI) (params : Listing.CompletionParams) :
  In (Listing.Create client params) (snd (Listing.serve env req)) ->
  Listing.model params = lit "gpt-3.5-turbo"
  /\ Listing.max_tokens params = 500%Z
  /\ Listing.temperature params
     = Listing.listed_temperature (Endpoint.field req "creativity")
  /\ forall t,
       Spec.expected_temperature (Endpoint.field req "creativity") = Some t ->
       number_eq (Listing.temperature params) t.
Proof.
  intros H.
  assert (E : exists instruction,
             params
             = Listing.completion_request (Endpoint.field req "prompt")
                 instruction (Endpoint.field req "creativity")).
  { rewrite listed_serve_run in H. cbv zeta in H.
    destruct (js_string_eqb (Endpoint.method req) (lit "OPTIONS")).
    { destruct H as [H | []]. discriminate H. }
    destruct (negb (js_string_eqb (Endpoint.method req) (lit "POST"))).
    { destruct H as [H | []]. discriminate H. }
    destruct (truthy (Endpoint.field req "prompt")).
    2:{ destruct H as [H | []]. discriminate H. }
    destruct (Endpoint.new_OpenAI (Endpoint.client_options env))
      as [error | openai].
    { destruct H as [H | [H | []]]; discriminate H. }
    destruct Endpoint.enhancementInstruction as [error | instruction].
    { destruct H as [H | [H | []]]; discriminate H. }
    destruct Listing.chat_completions_create as [reason | completion];
      [| destruct (is_nullish completion)];
      cbn [snd In app] in H;
      repeat match goal with
             | H : _ \/ _ |- _ => destruct H as [H | H]
             | H : False |- _ => destruct H
             end;
      try discriminate; injection H as _ <-; eauto. }
  destruct E as [instruction ->]. repeat split.
  apply listed_temperature_expected.
Qed.

(** Property X19.
    The file and the listing differ in the model, the token limit and
    the temperature of the call, and in nothing else: on the same
    request and with the same constructor, when the completion API
    settles their two calls the same way, they send the same messages
    from the same client and give the same response. *)
Theorem listing_agrees_with_file
    {api : Endpoint.CompletionAPI} {listed : Listing.CompletionAPI}
    (req : Endpoint.Request) :
  (forall client instruction,
      Endpoint.new_OpenAI (Endpoint.client_options env) = inr client ->
      Endpoint.enhancementInstruction (Endpoint.field req "style")
        (Endpoint.field req "creativity") = inr instruction ->
      Endpoint.chat_completions_create client
        (Endpoint.completion_request (Endpoint.field req "prompt")
           instruction)
      = Listing.chat_completions_create client
          (Listing.completion_request (Endpoint.field req "prompt")
             instruction (Endpoint.field req "creativity"))) ->
  Endpoint.responses (snd (Endpoint.serve env req))
  = Listing.responses (snd (Listing.serve env req))
  /\ map (fun call => (fst call, Endpoint.messages (snd call)))
       (Endpoint.api_calls (snd (Endpoint.serve env req)))
     = map (fun call => (fst call, Listing.messages (snd call)))
         (Listing.api_calls (snd (Listing.serve env req))).
Proof.
  intros H. rewrite serve_run, listed_serve_run. cbv zeta.
  destruct (js_string_eqb (Endpoint.method req) (lit "OPTIONS"));
    [split; reflexivity |].
  destruct (negb (js_string_eqb (Endpoint.method req) (lit "POST")));
    [split; reflexivity |].
  destruct (truthy (Endpoint.field req "prompt")); [| split; reflexivity].
  destruct (Endpoint.new_OpenAI (Endpoint.client_options env))
    as [error | openai]; [split; reflexivity |].
  destruct Endpoint.enhancementInstruction as [error | instruction];
    [split; reflexivity |].
  rewrite (H openai instruction eq_refl eq_refl).
  destruct Listing.chat_completions_create as [reason | completion];
    [split; reflexivity |].
  destruct (is_nullish completion); split; reflexivity.
Qed.
End Facts.

Import Examples Scenarios.

Lemma listed_call_follows_creativity_witness :
  number_eq
    (Listing.temperature
       (Listing.completion_request (cv := numbers_only)
          (JStr (lit "Write a poem"))
          (Endpoint.instruction_text (lit "creative") (lit "8")) (JInt 8)))
    (Finite (inject_Z 8 / 10)).
Proof.
  refine (proj2 (proj2 (proj2
            (listed_call_follows_creativity (rt := integers_only)
               (cv := numbers_only) (sdk := openai_v4) env_with_key
               (api := listed_api_answers "ok") (post poem_body)
               {| Endpoint.apiKey := JStr (lit "sk-test") |}
               (Listing.completion_request (cv := numbers_only)
                  (JStr (lit "Write a poem"))
                  (Endpoint.instruction_text (lit "creative") (lit "8"))
                  (JInt 8)) _))) _ _).
  - vm_compute. left. reflexivity.
  - reflexivity.
Defined.

Lemma listing_agrees_with_file_witness :
  Endpoint.responses
    (snd (Endpoint.serve (rt := integers_only) (sdk := openai_v4)
            (api := api_answers "ok") env_with_key (post poem_body)))
  = Listing.responses
      (snd (Listing.serve (rt := integers_only) (cv := numbers_only)
              (sdk := openai_v4) (api := listed_api_answers "ok")
              env_with_key (post poem_body))).
Proof.
  refine (proj1 (listing_agrees_with_file (rt := integers_only)
                   (cv := numbers_only) (sdk := openai_v4) env_with_key
                   (api := api_answers "ok")
                   (listed := listed_api_answers "ok") (post poem_body) _)).
  reflexivity.
Defined.

End ListingFacts.
